(** * CNPJ identifier codec and company repository (database/postgresql.py)

    A shallow embedding of [PostgreSQLDatabase]: the pure identifier codec
    (digit extraction, zero padding, split/unsplit, modulo-11 check digits,
    validation, canonical formatting), the row mapper and the two repository
    operations [get_company] and [get_partners].

    Python [str] values are modelled as [string], i.e. sequences of code
    points below 256; on that range the regular-expression class [\d] is
    exactly the ten characters 0-9. *)

From Stdlib Require Import ZArith Lia Ascii DecimalString.
From stdpp Require Import base option list strings gmap.

(** ** Python strings *)

Module Py.

Definition chars (s : string) : list ascii := String.list_ascii_of_string s.
Definition str_of (l : list ascii) : string := String.string_of_list_ascii l.

(** [len(s)] *)
Definition len (s : string) : nat := length (chars s).

(** Index normalisation of a slice bound: a negative bound counts from the
    end, and every bound is clamped to [0, n]. *)
Definition clamp (n i : Z) : Z :=
  if (i <? 0)%Z then Z.max 0 (i + n) else Z.min i n.

(** [l[start:stop]] with optional bounds and unit step. *)
Definition slice_list {A} (start stop : option Z) (l : list A) : list A :=
  let n := Z.of_nat (length l) in
  let lo := from_option (clamp n) 0%Z start in
  let hi := from_option (clamp n) n stop in
  take (Z.to_nat (hi - lo)) (drop (Z.to_nat lo) l).

(** [s[start:stop]] on strings. *)
Definition slice (start stop : option Z) (s : string) : string :=
  str_of (slice_list start stop (chars s)).

(** The class [\d] on code points below 256. *)
Definition isdigit (c : ascii) : bool :=
  match Ascii.is_nat c with Some _ => true | None => false end.

(** [re.sub(r"[^\d]", "", s)]: every character outside [\d] is deleted. *)
Definition re_sub_non_digits (s : string) : string :=
  str_of (filter (λ c, isdigit c) (chars s)).

Definition zero : ascii := "0"%char.

Definition is_sign (c : ascii) : bool :=
  bool_decide (c = "+"%char) || bool_decide (c = "-"%char).

(** [s.zfill(width)]: strings at least [width] long are returned
    unchanged; otherwise zeros are inserted on the left, after a leading
    sign character if there is one. *)
Definition zfill (width : nat) (s : string) : string :=
  let l := chars s in
  if decide (width ≤ length l) then s
  else
    let pad := replicate (width - length l) zero in
    match l with
    | c :: rest => if is_sign c then str_of (c :: pad ++ rest)
                   else str_of (pad ++ l)
    | [] => str_of pad
    end.

(** [str(n)] for an integer [n]. *)
Definition str_of_int (z : Z) : string := NilZero.string_of_int (Z.to_int z).

(** [sum(l)] on a list of integers. *)
Definition sum (l : list Z) : Z := foldr Z.add 0%Z l.

End Py.

(** ** Exceptions and results *)

Inductive exn : Type :=
  | InvalidCNPJException (msg : string)
  | ValueError
  | IndexError
  | DatabaseError (msg : string).

Inductive result (A : Type) : Type :=
  | Return (a : A)
  | Raise (e : exn).
Arguments Return {A} a.
Arguments Raise {A} e.

Definition rbind {A B} (m : result A) (k : A → result B) : result B :=
  match m with
  | Return a => k a
  | Raise e => Raise e
  end.

Notation "'do' x <- m ; k" := (rbind m (λ x, k))
  (at level 20, x pattern, m at level 100, k at level 200, only parsing).

(** A list comprehension whose body may raise: elements are evaluated left to
    right and the first exception aborts the comprehension. *)
Fixpoint comprehension {A B} (f : A → result B) (l : list A) : result (list B) :=
  match l with
  | [] => Return []
  | x :: l' => do y <- f x; do ys <- comprehension f l'; Return (y :: ys)
  end.

(** [int(c)] for a one-character string [c], as produced by iterating over a
    string: the decimal value of a digit, [ValueError] on anything else. *)
Definition int (c : ascii) : result Z :=
  match Ascii.is_nat c with
  | Some d => Return (Z.of_nat d)
  | None => Raise ValueError
  end.

(** ** Identifier codec *)

Definition _cnpj_only_digits (cnpj : string) : string :=
  let only_digits := Py.re_sub_non_digits cnpj in
  if decide (only_digits = "") then only_digits
  else Py.zfill 14 only_digits.

Definition _calculate_cnpj_dv_digit (cnpj_without_dv : string)
    (first_digit : string) : result string :=
  let weights := [6; 5; 4; 3; 2; 9; 8; 7; 6; 5; 4; 3; 2]%Z in
  let weights :=
    if decide (first_digit = "") then Py.slice_list (Some 1%Z) None weights
    else weights in
  let cnpj_to_weight := cnpj_without_dv +:+ first_digit in
  do weighted_digits <-
    comprehension (λ '(num, weight), do n <- int num; Return (n * weight)%Z)
                  (zip (Py.chars cnpj_to_weight) weights);
  let sum_remainder := (Py.sum weighted_digits `mod` 11)%Z in
  if (sum_remainder <? 2)%Z then Return "0"
  else Return (Py.str_of_int (11 - sum_remainder)).

Definition _generate_cnpj_dv (cnpj_without_dv : string) : result string :=
  do first_digit <- _calculate_cnpj_dv_digit cnpj_without_dv "";
  do second_digit <- _calculate_cnpj_dv_digit cnpj_without_dv first_digit;
  Return (first_digit +:+ second_digit).

Definition _is_valid_cnpj (cnpj : string) : result bool :=
  let cnpj_only_digits := _cnpj_only_digits cnpj in
  if bool_decide (cnpj_only_digits = "") || bool_decide (14 < Py.len cnpj_only_digits)
  then Return false
  else
    let cnpj_without_dv := Py.slice None (Some (-2)%Z) cnpj_only_digits in
    do generated_dv <- _generate_cnpj_dv cnpj_without_dv;
    Return (bool_decide (Py.slice (Some (-2)%Z) None cnpj_only_digits = generated_dv)).

Definition _format_full_cnpj (cnpj : string) : string :=
  let cnpj_only_digits := _cnpj_only_digits cnpj in
  Py.slice None (Some 2%Z) cnpj_only_digits +:+ "." +:+
  Py.slice (Some 2%Z) (Some 5%Z) cnpj_only_digits +:+ "." +:+
  Py.slice (Some 5%Z) (Some 8%Z) cnpj_only_digits +:+ "/" +:+
  Py.slice (Some 8%Z) (Some 12%Z) cnpj_only_digits +:+ "-" +:+
  Py.slice (Some 12%Z) None cnpj_only_digits.

Definition _split_cnpj (cnpj : string) : string * string * string :=
  let cnpj_only_digits := _cnpj_only_digits cnpj in
  (Py.slice None (Some 8%Z) cnpj_only_digits,
   Py.slice (Some 8%Z) (Some 12%Z) cnpj_only_digits,
   Py.slice (Some 12%Z) None cnpj_only_digits).

(** The three components are strings here, so [str(component)] is the
    component itself. *)
Definition _unsplit_cnpj (cnpj_basico cnpj_ordem cnpj_dv : string) : string :=
  Py.zfill 8 cnpj_basico +:+ Py.zfill 4 cnpj_ordem +:+ Py.zfill 2 cnpj_dv.

(** ** Row values and the row mapper *)

(** A column value handed over by the database driver: [None], a [str], an
    [int], a [bool], or any other object (a date, a decimal number, ...),
    which is represented by the text [str()] returns for it.  Only a [str]
    compares equal to a [str]. *)
Inductive pyval : Type :=
  | PyNone
  | PyStr (s : string)
  | PyInt (z : Z)
  | PyBool (b : bool)
  | PyObj (text : string).

Global Instance pyval_eq_dec : EqDecision pyval.
Proof. solve_decision. Defined.

Definition row : Type := list pyval.

(** [isinstance(data, str)] *)
Definition isinstance_str (data : pyval) : bool :=
  match data with PyStr _ => true | _ => false end.

(** [data == s] for a string literal [s] *)
Definition eq_str (data : pyval) (s : string) : bool :=
  match data with PyStr t => bool_decide (t = s) | _ => false end.

(** [data is None] *)
Definition is_None (data : pyval) : bool :=
  match data with PyNone => true | _ => false end.

(** [str(data)] *)
Definition py_str (data : pyval) : string :=
  match data with
  | PyNone => "None"
  | PyStr s => s
  | PyInt z => Py.str_of_int z
  | PyBool b => if b then "True" else "False"
  | PyObj text => text
  end.

Definition _always_str_or_none (data : pyval) : option string :=
  if eq_str data "None" || eq_str data "" || is_None data then None
  else if negb (isinstance_str data) then Some (py_str data)
  else match data with PyStr s => Some s | _ => Some (py_str data) end.

(** [l[i]] for a non-negative literal index [i] *)
Definition index {A} (l : list A) (i : nat) : result A :=
  match l !! i with
  | Some x => Return x
  | None => Raise IndexError
  end.

(** The entity classes come from the [companies] module; they are records of
    the keyword arguments their constructors are called with. *)
Module Company.
Record t : Type := mk {
  cnpj_basico : string;
  cnpj_ordem : string;
  cnpj_dv : string;
  cnpj_completo : string;
  cnpj_completo_apenas_numeros : string;
  identificador_matriz_filial : option string;
  nome_fantasia : option string;
  situacao_cadastral : option string;
  data_situacao_cadastral : option string;
  motivo_situacao_cadastral : option string;
  nome_cidade_exterior : option string;
  data_inicio_atividade : option string;
  cnae_fiscal_secundario : option string;
  tipo_logradouro : option string;
  logradouro : option string;
  numero : option string;
  complemento : option string;
  bairro : option string;
  cep : option string;
  uf : option string;
  ddd_telefone_1 : option string;
  ddd_telefone_2 : option string;
  ddd_telefone_fax : option string;
  correio_eletronico : option string;
  situacao_especial : option string;
  data_situacao_especial : option string;
  pais : option string;
  municipio : option string;
  razao_social : option string;
  natureza_juridica : option string;
  qualificacao_do_responsavel : option string;
  capital_social : option string;
  porte : option string;
  ente_federativo_responsavel : option string;
  opcao_pelo_simples : option string;
  data_opcao_pelo_simples : option string;
  data_exclusao_pelo_simples : option string;
  opcao_pelo_mei : option string;
  data_opcao_pelo_mei : option string;
  data_exclusao_pelo_mei : option string;
  cnae : option string
}.
End Company.

Module Partner.
Record t : Type := mk {
  cnpj_basico : string;
  cnpj_ordem : string;
  cnpj_dv : string;
  cnpj_completo : string;
  cnpj_completo_apenas_numeros : string;
  identificador_socio : option string;
  razao_social : option string;
  cnpj_cpf_socio : option string;
  qualificacao_socio : option string;
  data_entrada_sociedade : option string;
  pais_socio_estrangeiro : option string;
  numero_cpf_representante_legal : option string;
  nome_representante_legal : option string;
  qualificacao_representante_legal : option string;
  faixa_etaria : option string
}.
End Partner.

Definition _format_company_data (data : row) (cnpj : string) : result Company.t :=
  let cnpj_only_digits := _cnpj_only_digits cnpj in
  let '(cnpj_basico, cnpj_ordem, cnpj_dv) := _split_cnpj cnpj in
  let full_cnpj := _format_full_cnpj cnpj in
  let formatted_data := map _always_str_or_none data in
  do identificador_matriz_filial <- index formatted_data 3;
  do nome_fantasia <- index formatted_data 4;
  do situacao_cadastral <- index formatted_data 5;
  do data_situacao_cadastral <- index formatted_data 6;
  do motivo_situacao_cadastral <- index formatted_data 7;
  do nome_cidade_exterior <- index formatted_data 8;
  do data_inicio_atividade <- index formatted_data 9;
  do cnae_fiscal_secundario <- index formatted_data 10;
  do tipo_logradouro <- index formatted_data 11;
  do logradouro <- index formatted_data 12;
  do numero <- index formatted_data 13;
  do complemento <- index formatted_data 14;
  do bairro <- index formatted_data 15;
  do cep <- index formatted_data 16;
  do uf <- index formatted_data 17;
  do ddd_telefone_1 <- index formatted_data 18;
  do ddd_telefone_2 <- index formatted_data 19;
  do ddd_telefone_fax <- index formatted_data 20;
  do correio_eletronico <- index formatted_data 21;
  do situacao_especial <- index formatted_data 22;
  do data_situacao_especial <- index formatted_data 23;
  do pais <- index formatted_data 24;
  do municipio <- index formatted_data 25;
  do razao_social <- index formatted_data 26;
  do natureza_juridica <- index formatted_data 27;
  do qualificacao_do_responsavel <- index formatted_data 28;
  do capital_social <- index formatted_data 29;
  do porte <- index formatted_data 30;
  do ente_federativo_responsavel <- index formatted_data 31;
  do opcao_pelo_simples <- index formatted_data 32;
  do data_opcao_pelo_simples <- index formatted_data 33;
  do data_exclusao_pelo_simples <- index formatted_data 34;
  do opcao_pelo_mei <- index formatted_data 35;
  do data_opcao_pelo_mei <- index formatted_data 36;
  do data_exclusao_pelo_mei <- index formatted_data 37;
  do cnae <- index formatted_data 38;
  Return {|
    Company.cnpj_basico := cnpj_basico;
    Company.cnpj_ordem := cnpj_ordem;
    Company.cnpj_dv := cnpj_dv;
    Company.cnpj_completo := full_cnpj;
    Company.cnpj_completo_apenas_numeros := cnpj_only_digits;
    Company.identificador_matriz_filial := identificador_matriz_filial;
    Company.nome_fantasia := nome_fantasia;
    Company.situacao_cadastral := situacao_cadastral;
    Company.data_situacao_cadastral := data_situacao_cadastral;
    Company.motivo_situacao_cadastral := motivo_situacao_cadastral;
    Company.nome_cidade_exterior := nome_cidade_exterior;
    Company.data_inicio_atividade := data_inicio_atividade;
    Company.cnae_fiscal_secundario := cnae_fiscal_secundario;
    Company.tipo_logradouro := tipo_logradouro;
    Company.logradouro := logradouro;
    Company.numero := numero;
    Company.complemento := complemento;
    Company.bairro := bairro;
    Company.cep := cep;
    Company.uf := uf;
    Company.ddd_telefone_1 := ddd_telefone_1;
    Company.ddd_telefone_2 := ddd_telefone_2;
    Company.ddd_telefone_fax := ddd_telefone_fax;
    Company.correio_eletronico := correio_eletronico;
    Company.situacao_especial := situacao_especial;
    Company.data_situacao_especial := data_situacao_especial;
    Company.pais := pais;
    Company.municipio := municipio;
    Company.razao_social := razao_social;
    Company.natureza_juridica := natureza_juridica;
    Company.qualificacao_do_responsavel := qualificacao_do_responsavel;
    Company.capital_social := capital_social;
    Company.porte := porte;
    Company.ente_federativo_responsavel := ente_federativo_responsavel;
    Company.opcao_pelo_simples := opcao_pelo_simples;
    Company.data_opcao_pelo_simples := data_opcao_pelo_simples;
    Company.data_exclusao_pelo_simples := data_exclusao_pelo_simples;
    Company.opcao_pelo_mei := opcao_pelo_mei;
    Company.data_opcao_pelo_mei := data_opcao_pelo_mei;
    Company.data_exclusao_pelo_mei := data_exclusao_pelo_mei;
    Company.cnae := cnae
  |}.

Definition _format_partner_data (data : row) (cnpj : string) : result Partner.t :=
  let cnpj_only_digits := _cnpj_only_digits cnpj in
  let '(cnpj_basico, cnpj_ordem, cnpj_dv) := _split_cnpj cnpj in
  let full_cnpj := _format_full_cnpj cnpj in
  let formatted_data := map _always_str_or_none data in
  do identificador_socio <- index formatted_data 1;
  do razao_social <- index formatted_data 2;
  do cnpj_cpf_socio <- index formatted_data 3;
  do qualificacao_socio <- index formatted_data 4;
  do data_entrada_sociedade <- index formatted_data 5;
  do pais_socio_estrangeiro <- index formatted_data 6;
  do numero_cpf_representante_legal <- index formatted_data 7;
  do nome_representante_legal <- index formatted_data 8;
  do qualificacao_representante_legal <- index formatted_data 9;
  do faixa_etaria <- index formatted_data 10;
  Return {|
    Partner.cnpj_basico := cnpj_basico;
    Partner.cnpj_ordem := cnpj_ordem;
    Partner.cnpj_dv := cnpj_dv;
    Partner.cnpj_completo := full_cnpj;
    Partner.cnpj_completo_apenas_numeros := cnpj_only_digits;
    Partner.identificador_socio := identificador_socio;
    Partner.razao_social := razao_social;
    Partner.cnpj_cpf_socio := cnpj_cpf_socio;
    Partner.qualificacao_socio := qualificacao_socio;
    Partner.data_entrada_sociedade := data_entrada_sociedade;
    Partner.pais_socio_estrangeiro := pais_socio_estrangeiro;
    Partner.numero_cpf_representante_legal := numero_cpf_representante_legal;
    Partner.nome_representante_legal := nome_representante_legal;
    Partner.qualificacao_representante_legal := qualificacao_representante_legal;
    Partner.faixa_etaria := faixa_etaria
  |}.

(** The row position every attribute of a mapped entity is read from. *)
Definition company_columns : list (nat * (Company.t → option string)) :=
  [(3, Company.identificador_matriz_filial);
   (4, Company.nome_fantasia);
   (5, Company.situacao_cadastral);
   (6, Company.data_situacao_cadastral);
   (7, Company.motivo_situacao_cadastral);
   (8, Company.nome_cidade_exterior);
   (9, Company.data_inicio_atividade);
   (10, Company.cnae_fiscal_secundario);
   (11, Company.tipo_logradouro);
   (12, Company.logradouro);
   (13, Company.numero);
   (14, Company.complemento);
   (15, Company.bairro);
   (16, Company.cep);
   (17, Company.uf);
   (18, Company.ddd_telefone_1);
   (19, Company.ddd_telefone_2);
   (20, Company.ddd_telefone_fax);
   (21, Company.correio_eletronico);
   (22, Company.situacao_especial);
   (23, Company.data_situacao_especial);
   (24, Company.pais);
   (25, Company.municipio);
   (26, Company.razao_social);
   (27, Company.natureza_juridica);
   (28, Company.qualificacao_do_responsavel);
   (29, Company.capital_social);
   (30, Company.porte);
   (31, Company.ente_federativo_responsavel);
   (32, Company.opcao_pelo_simples);
   (33, Company.data_opcao_pelo_simples);
   (34, Company.data_exclusao_pelo_simples);
   (35, Company.opcao_pelo_mei);
   (36, Company.data_opcao_pelo_mei);
   (37, Company.data_exclusao_pelo_mei);
   (38, Company.cnae)].

Definition partner_columns : list (nat * (Partner.t → option string)) :=
  [(1, Partner.identificador_socio);
   (2, Partner.razao_social);
   (3, Partner.cnpj_cpf_socio);
   (4, Partner.qualificacao_socio);
   (5, Partner.data_entrada_sociedade);
   (6, Partner.pais_socio_estrangeiro);
   (7, Partner.numero_cpf_representante_legal);
   (8, Partner.nome_representante_legal);
   (9, Partner.qualificacao_representante_legal);
   (10, Partner.faixa_etaria)].

(** ** The row source and its resources *)

(** The two query texts. *)
Inductive command : Type :=
  | select_resposta_cnpj
  | select_resposta_socios.

Global Instance command_eq_dec : EqDecision command.
Proof. solve_decision. Defined.

(** What the server does with an executed query: [cursor.execute] raises, or
    the cursor yields [rows] and then either ends or raises while it is being
    iterated. *)
Inductive reply : Type :=
  | ExecuteError (msg : string)
  | Rows (rows : list row) (failure : option string).

(** The external collaborator behind [psycopg2]: [refuse] is the error
    [psycopg2.connect] raises, if any, and [answer] the server's reply to a
    query with its named parameters. *)
Record database : Type := {
  refuse : option string;
  answer : command → gmap string string → reply
}.

(** The connections and cursors that are open, and the queries sent so far. *)
Record world : Type := {
  open_connections : nat;
  open_cursors : nat;
  queries : list (command * gmap string string)
}.

Definition io (A : Type) : Type := world → result A * world.

Definition io_ret {A} (a : A) : io A := λ w, (Return a, w).
Definition io_raise {A} (e : exn) : io A := λ w, (Raise e, w).
Definition io_lift {A} (r : result A) : io A := λ w, (r, w).
Definition io_bind {A B} (m : io A) (k : A → io B) : io B := λ w,
  match m w with
  | (Return a, w') => k a w'
  | (Raise e, w') => (Raise e, w')
  end.

Notation "'run' x <- m ; k" := (io_bind m (λ x, k))
  (at level 20, x pattern, m at level 100, k at level 200, only parsing).

(** [psycopg2.connect(...)] *)
Definition psycopg2_connect (db : database) : io unit := λ w,
  match refuse db with
  | Some msg => (Raise (DatabaseError msg), w)
  | None => (Return (), {| open_connections := S (open_connections w);
                           open_cursors := open_cursors w;
                           queries := queries w |})
  end.

(** Closing a connection.  The program never calls [connection.close()]; a
    connection is closed only by its finaliser, once nothing refers to it. *)
Definition connection_close : io unit := λ w,
  (Return (), {| open_connections := pred (open_connections w);
                 open_cursors := open_cursors w;
                 queries := queries w |}).

(** [with connection.cursor() as cursor: body]: the cursor is closed when the
    block is left, whether [body] returns or raises. *)
Definition with_cursor {A} (body : io A) : io A := λ w,
  let '(r, w') := body {| open_connections := open_connections w;
                          open_cursors := S (open_cursors w);
                          queries := queries w |} in
  (r, {| open_connections := open_connections w';
         open_cursors := pred (open_cursors w');
         queries := queries w' |}).

(** [cursor.execute(command, data)] *)
Definition cursor_execute (db : database) (c : command)
    (data : gmap string string) : io reply := λ w,
  let w' := {| open_connections := open_connections w;
               open_cursors := open_cursors w;
               queries := queries w ++ [(c, data)] |} in
  match answer db c data with
  | ExecuteError msg => (Raise (DatabaseError msg), w')
  | r => (Return r, w')
  end.

(** [for entry in cursor: yield entry], run to the end by the caller *)
Definition cursor_iterate (r : reply) : io (list row) :=
  match r with
  | Rows rows None => io_ret rows
  | Rows _ (Some msg) => io_raise (DatabaseError msg)
  | ExecuteError msg => io_raise (DatabaseError msg)
  end.

(** The lifetime of the generator's local variable [connection], the only
    reference to the connection.  When the generator is exhausted its frame is
    discarded, nothing refers to the connection any more and its finaliser
    closes it.  When the generator raises, the traceback of the exception
    keeps the frame and its locals, so the connection stays open while the
    exception propagates. *)
Definition local_connection {A} (body : io A) : io A := λ w,
  match body w with
  | (Return a, w') => (Return a, (connection_close w').2)
  | (Raise e, w') => (Raise e, w')
  end.

(** ** Repository *)

(** [list(self._select(command, data))]: both callers consume the generator
    at once, so the generator body runs from its first line to its end (or to
    the exception that leaves it). *)
Definition _select (db : database) (c : command)
    (data : gmap string string) : io (list row) :=
  run _ <- psycopg2_connect db;
  local_connection (
    with_cursor (
      run r <- cursor_execute db c data;
      cursor_iterate r)).

Definition dquote : string := String (Ascii.Ascii false true false false false true false false) "".

(** [f'CNPJ "{cnpj}" is not valid.'] *)
Definition invalid_message (cnpj : string) : string :=
  "CNPJ " +:+ dquote +:+ cnpj +:+ dquote +:+ " is not valid.".

Definition get_company (db : database) (cnpj : string) : io (option Company.t) :=
  run valid <- io_lift (_is_valid_cnpj cnpj);
  if negb valid then io_raise (InvalidCNPJException (invalid_message cnpj))
  else
    let '(cnpj_basico, cnpj_ordem, cnpj_dv) := _split_cnpj cnpj in
    let data : gmap string string :=
      <["cnpj_basico" := cnpj_basico]>
        (<["cnpj_ordem" := cnpj_ordem]> (<["cnpj_dv" := cnpj_dv]> ∅)) in
    run result <- _select db select_resposta_cnpj data;
    if bool_decide (result = []) then io_ret None
    else
      run first <- io_lift (index result 0);
      run company <- io_lift (_format_company_data first cnpj);
      io_ret (Some company).

Definition get_partners (db : database) (cnpj : string) : io (nat * list Partner.t) :=
  run valid <- io_lift (_is_valid_cnpj cnpj);
  if negb valid then io_raise (InvalidCNPJException (invalid_message cnpj))
  else
    let '(cnpj_basico, _, _) := _split_cnpj cnpj in
    let data : gmap string string := <["cnpj_basico" := cnpj_basico]> ∅ in
    run results <- _select db select_resposta_socios data;
    run partners <-
      io_lift (comprehension (λ result, _format_partner_data result cnpj) results);
    io_ret (length results, partners).

(** A world in which nothing is held and nothing has been sent. *)
Definition idle : world :=
  {| open_connections := 0; open_cursors := 0; queries := [] |}.

(** ** The specification's reading of the codec *)

Module Spec.

(** A string made of digit characters only. *)
Definition digit_string (s : string) : Prop :=
  Forall (λ c, Py.isdigit c) (Py.chars s).

(** The number of digit characters of a string. *)
Definition digit_count (s : string) : nat :=
  length (filter (λ c, Py.isdigit c) (Py.chars s)).

Definition weights_first : list Z := [5; 4; 3; 2; 9; 8; 7; 6; 5; 4; 3; 2]%Z.
Definition weights_second : list Z := [6; 5; 4; 3; 2; 9; 8; 7; 6; 5; 4; 3; 2]%Z.

(** The value of a digit character and the character of a digit value. *)
Definition digit_value (c : ascii) : Z := (Z.of_N (N_of_ascii c) - 48)%Z.
Definition digit_char (d : Z) : ascii := ascii_of_N (Z.to_N (48 + d)).

(** Weights applied to the digits most-significant first, products summed. *)
Definition weighted_sum (ws : list Z) (s : string) : Z :=
  foldr Z.add 0%Z (zip_with Z.mul (digit_value <$> Py.chars s) ws).

(** The mod-11 rule: a remainder below 2 gives the digit 0, any other
    remainder r gives the digit 11 - r. *)
Definition mod11_digit (ws : list Z) (s : string) : string :=
  let r := (weighted_sum ws s `mod` 11)%Z in
  if (r <? 2)%Z then "0" else String (digit_char (11 - r)) "".

Definition checkDigits (base12 : string) : string :=
  let first := mod11_digit weights_first base12 in
  first +:+ mod11_digit weights_second (base12 +:+ first).

(** Non-digits stripped, then left-padded with zeros to 14 characters. *)
Definition strip (s : string) : string :=
  Py.str_of (filter (λ c, Py.isdigit c) (Py.chars s)).
Definition pad14 (d : string) : string :=
  Py.str_of (replicate (14 - Py.len d) Py.zero ++ Py.chars d).
Definition normalized (s : string) : string := pad14 (strip s).

Definition base8 (s : string) : string := Py.str_of (take 8 (Py.chars s)).
Definition first12 (s : string) : string := Py.str_of (take 12 (Py.chars s)).
Definition last2 (s : string) : string := Py.str_of (drop 12 (Py.chars s)).

(** The shape NN.NNN.NNN/NNNN-NN: [N] stands for any digit, every other
    character for itself. *)
Definition canonical_shape : string := "NN.NNN.NNN/NNNN-NN".

Fixpoint matches (shape s : list ascii) : bool :=
  match shape, s with
  | [], [] => true
  | p :: shape', c :: s' =>
      (if bool_decide (p = "N"%char) then Py.isdigit c else bool_decide (c = p))
      && matches shape' s'
  | _, _ => false
  end.

Definition has_canonical_shape (s : string) : Prop :=
  matches (Py.chars canonical_shape) (Py.chars s) = true.

End Spec.

(** [join(split(x))] *)
Definition join_split (x : string) : string :=
  let '(cnpj_basico, cnpj_ordem, cnpj_dv) := _split_cnpj x in
  _unsplit_cnpj cnpj_basico cnpj_ordem cnpj_dv.

(** The parameters of the company lookup and of the partners lookup. *)
Definition company_filter (cnpj : string) : gmap string string :=
  let '(cnpj_basico, cnpj_ordem, cnpj_dv) := _split_cnpj cnpj in
  <["cnpj_basico" := cnpj_basico]>
    (<["cnpj_ordem" := cnpj_ordem]> (<["cnpj_dv" := cnpj_dv]> ∅)).

Definition partners_filter (cnpj : string) : gmap string string :=
  <["cnpj_basico" := Py.slice None (Some 8%Z) (_cnpj_only_digits cnpj)]> ∅.

(** The specification's reading of a lookup: the connection is scoped to the
    call and released by a finally-style cleanup on every exit path. *)
Definition finally_close {A} (body : io A) : io A := λ w,
  let '(r, w') := body w in (r, (connection_close w').2).

Definition scoped_select (db : database) (c : command)
    (data : gmap string string) : io (list row) :=
  run _ <- psycopg2_connect db;
  finally_close (with_cursor (
    run r <- cursor_execute db c data;
    cursor_iterate r)).

(** A call has released the connection it acquired when no more connections
    are open after it than before it. *)
Definition connection_released (before after : world) : Prop :=
  open_connections after = open_connections before.

(** ** Sample data *)

(** A database that accepts connections and answers every query with the
    same rows. *)
Definition serving (rows : list row) : database :=
  {| refuse := None; answer := λ _ _, Rows rows None |}.

(** A row of the partners relation. *)
Definition partner_row (name : string) : row :=
  [PyStr "11222333"; PyInt 2; PyStr name; PyStr "***123456**"; PyInt 49;
   PyObj "2010-05-17"; PyNone; PyStr "None"; PyStr ""; PyInt 0; PyInt 5].

(** A row of the company relation: 39 columns. *)
Definition company_row : row :=
  [PyStr "11222333"; PyStr "0001"; PyStr "81"; PyInt 1; PyStr "ACME"]
  ++ replicate 33 PyNone ++ [PyStr "6201501"].

(** A database whose server rejects every query. *)
Definition rejecting (msg : string) : database :=
  {| refuse := None; answer := λ _ _, ExecuteError msg |}.

(** The Partner the row [partner_row name] is mapped to for the identifier
    11.222.333/0001-81. *)
Definition partner_of (name : string) : Partner.t :=
  {| Partner.cnpj_basico := "11222333";
     Partner.cnpj_ordem := "0001";
     Partner.cnpj_dv := "81";
     Partner.cnpj_completo := "11.222.333/0001-81";
     Partner.cnpj_completo_apenas_numeros := "11222333000181";
     Partner.identificador_socio := Some "2";
     Partner.razao_social := Some name;
     Partner.cnpj_cpf_socio := Some "***123456**";
     Partner.qualificacao_socio := Some "49";
     Partner.data_entrada_sociedade := Some "2010-05-17";
     Partner.pais_socio_estrangeiro := None;
     Partner.numero_cpf_representante_legal := None;
     Partner.nome_representante_legal := None;
     Partner.qualificacao_representante_legal := Some "0";
     Partner.faixa_etaria := Some "5" |}.

(** A database that cannot be reached. *)
Definition unreachable (msg : string) : database :=
  {| refuse := Some msg; answer := λ _ _, Rows [] None |}.

(** A database whose cursor breaks after the rows it has yielded. *)
Definition breaking (rows : list row) (msg : string) : database :=
  {| refuse := None; answer := λ _ _, Rows rows (Some msg) |}.

(** * Properties *)

(** ** Strings and slices *)

Section Strings.

Lemma chars_str_of l : Py.chars (Py.str_of l) = l.
Proof. apply String.list_ascii_of_string_of_list_ascii. Qed.

Lemma str_of_chars s : Py.str_of (Py.chars s) = s.
Proof. apply String.string_of_list_ascii_of_string. Qed.

Lemma chars_app s t : Py.chars (s +:+ t) = Py.chars s ++ Py.chars t.
Proof. induction s as [|c s IH]; simpl; [done|]. by rewrite IH. Qed.

Lemma str_of_app l k : Py.str_of (l ++ k) = Py.str_of l +:+ Py.str_of k.
Proof.
  rewrite <- (str_of_chars (_ +:+ _)), chars_app. by rewrite !chars_str_of.
Qed.

Lemma chars_inj s t : Py.chars s = Py.chars t → s = t.
Proof. intros H. by rewrite <- (str_of_chars s), H, str_of_chars. Qed.

Lemma str_of_nil_iff l : Py.str_of l = "" ↔ l = [].
Proof. destruct l; simpl; split; congruence. Qed.

Lemma len_str_of l : Py.len (Py.str_of l) = length l.
Proof. unfold Py.len. by rewrite chars_str_of. Qed.

Lemma zfill_long w s : w ≤ Py.len s → Py.zfill w s = s.
Proof. intros H. unfold Py.zfill. by rewrite decide_True. Qed.

Lemma isdigit_not_sign c : Py.isdigit c → Py.is_sign c = false.
Proof.
  unfold Py.is_sign. intros Hd.
  destruct (bool_decide_reflect (c = "+"%char)) as [->|_]; [done|].
  destruct (bool_decide_reflect (c = "-"%char)) as [->|_]; done.
Qed.

(** On a digit string [zfill] only ever prepends zeros. *)
Lemma zfill_digits w l :
  Forall (λ c, Py.isdigit c) l →
  Py.zfill w (Py.str_of l) = Py.str_of (replicate (w - length l) Py.zero ++ l).
Proof.
  intros Hl. unfold Py.zfill. rewrite chars_str_of.
  destruct (decide (w ≤ length l)) as [Hle|Hgt].
  - by replace (w - length l) with 0 by lia.
  - destruct Hl as [|c l Hc Hl]; simpl.
    + by rewrite app_nil_r.
    + by rewrite (isdigit_not_sign c Hc).
Qed.

Lemma slice_list_prefix {A} (l : list A) (k : nat) :
  Py.slice_list None (Some (Z.of_nat k)) l = take k l.
Proof.
  unfold Py.slice_list, Py.clamp. simpl.
  destruct (Z.ltb_spec (Z.of_nat k) 0); [lia|].
  rewrite drop_0, Z.sub_0_r.
  destruct (decide (k ≤ length l)).
  - rewrite Z.min_l by lia. by rewrite Nat2Z.id.
  - rewrite Z.min_r by lia. rewrite Nat2Z.id.
    by rewrite !take_ge by lia.
Qed.

Lemma slice_list_suffix {A} (l : list A) (k : nat) :
  Py.slice_list (Some (Z.of_nat k)) None l = drop k l.
Proof.
  unfold Py.slice_list, Py.clamp. simpl.
  destruct (Z.ltb_spec (Z.of_nat k) 0); [lia|].
  destruct (decide (k ≤ length l)).
  - rewrite Z.min_l by lia. rewrite Nat2Z.id.
    apply take_ge. rewrite length_drop. lia.
  - rewrite Z.min_r by lia. rewrite Nat2Z.id.
    rewrite !drop_ge by lia. by rewrite take_nil.
Qed.

Lemma slice_list_middle {A} (l : list A) (i j : nat) :
  i ≤ j →
  Py.slice_list (Some (Z.of_nat i)) (Some (Z.of_nat j)) l = take (j - i) (drop i l).
Proof.
  intros Hij. unfold Py.slice_list, Py.clamp. simpl.
  destruct (Z.ltb_spec (Z.of_nat i) 0); [lia|].
  destruct (Z.ltb_spec (Z.of_nat j) 0); [lia|].
  destruct (decide (j ≤ length l)).
  - rewrite (Z.min_l (Z.of_nat j)), (Z.min_l (Z.of_nat i)) by lia.
    rewrite Nat2Z.id. f_equal. lia.
  - destruct (decide (i ≤ length l)).
    + rewrite (Z.min_r (Z.of_nat j)), (Z.min_l (Z.of_nat i)) by lia.
      rewrite Nat2Z.id.
      rewrite !take_ge; [done|rewrite length_drop; lia|rewrite length_drop; lia].
    + rewrite (Z.min_r (Z.of_nat j)), (Z.min_r (Z.of_nat i)) by lia.
      rewrite Nat2Z.id, !drop_ge by lia. by rewrite !take_nil.
Qed.

(** A bound of -2 drops, respectively keeps, the last two elements. *)
Lemma slice_list_but_last2 {A} (l : list A) :
  Py.slice_list None (Some (-2)%Z) l = take (length l - 2) l.
Proof.
  unfold Py.slice_list, Py.clamp. simpl. rewrite drop_0, Z.sub_0_r.
  f_equal. lia.
Qed.

Lemma slice_list_last2 {A} (l : list A) :
  Py.slice_list (Some (-2)%Z) None l = drop (length l - 2) l.
Proof.
  unfold Py.slice_list, Py.clamp. simpl.
  replace (Z.to_nat (Z.max 0 (-2 + Z.of_nat (length l)))) with (length l - 2) by lia.
  apply take_ge. rewrite length_drop. lia.
Qed.

End Strings.

(** ** Check digits *)

Lemma int_digit c : Py.isdigit c → int c = Return (Spec.digit_value c).
Proof.
  destruct c as [[] [] [] [] [] [] [] []]; intros H; try done; reflexivity.
Qed.

Lemma weigh_digits (l : list ascii) (ws : list Z) :
  Forall (λ c, Py.isdigit c) l →
  comprehension (λ '(num, weight), do n <- int num; Return (n * weight)%Z) (zip l ws)
  = Return (zip_with Z.mul (Spec.digit_value <$> l) ws).
Proof.
  intros Hl. revert ws.
  induction Hl as [|c l Hc Hl IH]; intros [|w ws]; try reflexivity.
  cbn [zip zip_with comprehension fmap list_fmap].
  rewrite (int_digit c Hc). cbn [rbind]. rewrite IH. reflexivity.
Qed.

Lemma str_of_small_int (d : Z) :
  (1 ≤ d ≤ 9)%Z → Py.str_of_int d = String (Spec.digit_char d) "".
Proof.
  intros Hd.
  assert (d = 1 ∨ d = 2 ∨ d = 3 ∨ d = 4 ∨ d = 5 ∨ d = 6 ∨ d = 7 ∨ d = 8 ∨ d = 9)%Z
    as Hcases by lia.
  repeat destruct Hcases as [->|Hcases]; try subst d; reflexivity.
Qed.

Lemma digit_char_isdigit (d : Z) : (0 ≤ d ≤ 9)%Z → Py.isdigit (Spec.digit_char d).
Proof.
  intros Hd.
  assert (d = 0 ∨ d = 1 ∨ d = 2 ∨ d = 3 ∨ d = 4 ∨ d = 5 ∨ d = 6 ∨ d = 7 ∨ d = 8 ∨ d = 9)%Z
    as Hcases by lia.
  repeat destruct Hcases as [->|Hcases]; try subst d; done.
Qed.

(** The mod-11 rule always yields exactly one digit character. *)
Lemma mod11_digit_shape ws s :
  ∃ c, Spec.mod11_digit ws s = String c "" ∧ Py.isdigit c.
Proof.
  unfold Spec.mod11_digit.
  pose proof (Z.mod_pos_bound (Spec.weighted_sum ws s) 11 eq_refl) as Hr.
  destruct (Z.ltb_spec (Spec.weighted_sum ws s `mod` 11) 2).
  - by exists "0"%char.
  - eexists. split; [reflexivity|]. apply digit_char_isdigit. lia.
Qed.

Lemma calculate_digit_rule (ws : list Z) (s : string) :
  Spec.digit_string s →
  (do weighted_digits <-
     comprehension (λ '(num, weight), do n <- int num; Return (n * weight)%Z)
                   (zip (Py.chars s) ws);
   let sum_remainder := (Py.sum weighted_digits `mod` 11)%Z in
   if (sum_remainder <? 2)%Z then Return "0"
   else Return (Py.str_of_int (11 - sum_remainder)))
  = Return (Spec.mod11_digit ws s).
Proof.
  intros Hs. rewrite (weigh_digits _ ws Hs). cbn [rbind].
  unfold Spec.mod11_digit, Spec.weighted_sum, Py.sum.
  set (r := (_ `mod` 11)%Z).
  pose proof (Z.mod_pos_bound
    (foldr Z.add 0%Z (zip_with Z.mul (Spec.digit_value <$> Py.chars s) ws)) 11 eq_refl) as Hr.
  fold r in Hr. cbv zeta.
  destruct (Z.ltb_spec r 2); [done|].
  by rewrite str_of_small_int by lia.
Qed.

Lemma calculate_first_digit (s : string) :
  Spec.digit_string s →
  _calculate_cnpj_dv_digit s "" = Return (Spec.mod11_digit Spec.weights_first s).
Proof.
  intros Hs. unfold _calculate_cnpj_dv_digit.
  rewrite decide_True by done.
  change (Py.slice_list (Some 1%Z) None [6; 5; 4; 3; 2; 9; 8; 7; 6; 5; 4; 3; 2]%Z)
    with Spec.weights_first.
  cbv zeta. rewrite chars_app. simpl (Py.chars ""). rewrite app_nil_r.
  by apply calculate_digit_rule.
Qed.

Lemma calculate_second_digit (s first : string) :
  Spec.digit_string (s +:+ first) → first ≠ "" →
  _calculate_cnpj_dv_digit s first
  = Return (Spec.mod11_digit Spec.weights_second (s +:+ first)).
Proof.
  intros Hs Hne. unfold _calculate_cnpj_dv_digit.
  rewrite decide_False by done. cbv zeta.
  by apply (calculate_digit_rule Spec.weights_second).
Qed.

(** On digit strings the code computes the specified check digits and does
    not raise. *)
Lemma generate_dv_digits (s : string) :
  Spec.digit_string s → _generate_cnpj_dv s = Return (Spec.checkDigits s).
Proof.
  intros Hs. unfold _generate_cnpj_dv, Spec.checkDigits.
  rewrite (calculate_first_digit s Hs). cbn [rbind].
  destruct (mod11_digit_shape Spec.weights_first s) as (c & Hc & Hd).
  rewrite calculate_second_digit; [done| |by rewrite Hc].
  unfold Spec.digit_string. rewrite chars_app, Hc.
  apply Forall_app. split; [done|]. by constructor.
Qed.

Lemma checkDigits_shape (s : string) :
  ∃ c1 c2, Spec.checkDigits s = String c1 (String c2 "")
           ∧ Py.isdigit c1 ∧ Py.isdigit c2.
Proof.
  unfold Spec.checkDigits.
  destruct (mod11_digit_shape Spec.weights_first s) as (c1 & Hc1 & Hd1).
  rewrite Hc1.
  destruct (mod11_digit_shape Spec.weights_second (s +:+ String c1 "")) as (c2 & Hc2 & Hd2).
  rewrite Hc2. by exists c1, c2.
Qed.

(** C1: for every 12-digit string the code's check digits are the two
    characters the specified algorithm gives: weights (5,4,3,2,9,8,7,6,5,4,3,2)
    over the 12 digits, sum mod 11, digit 0 for a remainder below 2 and
    11 - remainder otherwise; then weights (6,5,4,3,2,9,8,7,6,5,4,3,2) over
    the 13 characters base12 + first digit under the same rule. *)
Theorem generate_cnpj_dv_correct (base12 : string) :
  Spec.digit_string base12 → Py.len base12 = 12 →
  _generate_cnpj_dv base12 = Return (Spec.checkDigits base12)
  ∧ Py.len (Spec.checkDigits base12) = 2
  ∧ Spec.digit_string (Spec.checkDigits base12).
Proof.
  intros Hs _. split; [by apply generate_dv_digits|].
  destruct (checkDigits_shape base12) as (c1 & c2 & -> & H1 & H2).
  split; [done|]. unfold Spec.digit_string. simpl. by repeat constructor.
Qed.

Lemma generate_cnpj_dv_correct_witness :
  _generate_cnpj_dv "112223330001" = Return (Spec.checkDigits "112223330001")
  ∧ Py.len (Spec.checkDigits "112223330001") = 2
  ∧ Spec.digit_string (Spec.checkDigits "112223330001").
Proof.
  apply (generate_cnpj_dv_correct "112223330001").
  - unfold Spec.digit_string. simpl. repeat constructor.
  - reflexivity.
Defined.

(** ** Normalisation *)

Lemma strip_digits s : Forall (λ c, Py.isdigit c) (Py.chars (Spec.strip s)).
Proof.
  unfold Spec.strip. rewrite chars_str_of.
  apply Forall_forall. intros c Hc. by apply list_elem_of_filter in Hc as [? _].
Qed.

Lemma len_strip s : Py.len (Spec.strip s) = Spec.digit_count s.
Proof. unfold Spec.strip. by rewrite len_str_of. Qed.

Lemma strip_empty_iff s : Spec.strip s = "" ↔ Spec.digit_count s = 0.
Proof.
  unfold Spec.strip, Spec.digit_count. rewrite str_of_nil_iff.
  split; [by intros ->|]. apply nil_length_inv.
Qed.

Lemma strip_digit_string s : Spec.digit_string s → Spec.strip s = s.
Proof.
  intros Hs. unfold Spec.strip.
  rewrite <- (str_of_chars s) at 2. f_equal.
  unfold Spec.digit_string in Hs.
  induction Hs as [|c l Hc Hl IH]; [done|].
  rewrite filter_cons_True by done. by rewrite IH.
Qed.

Lemma digit_count_digit_string s : Spec.digit_string s → Spec.digit_count s = Py.len s.
Proof. intros Hs. by rewrite <- len_strip, strip_digit_string. Qed.

(** The normal form the code computes: nothing for an input without digits,
    otherwise the digits behind as many zeros as are missing to 14. *)
Lemma only_digits_unfold s :
  _cnpj_only_digits s =
    if decide (Spec.digit_count s = 0) then ""
    else Py.str_of (replicate (14 - Spec.digit_count s) Py.zero
                    ++ Py.chars (Spec.strip s)).
Proof.
  unfold _cnpj_only_digits. change (Py.re_sub_non_digits s) with (Spec.strip s).
  destruct (decide (Spec.strip s = "")) as [He|Hne].
  - rewrite decide_True by by apply strip_empty_iff. done.
  - rewrite decide_False by by rewrite <- strip_empty_iff.
    rewrite <- (str_of_chars (Spec.strip s)) at 1.
    rewrite zfill_digits by apply strip_digits.
    by rewrite <- len_strip.
Qed.

Lemma only_digits_normalized s :
  Spec.digit_count s ≠ 0 → _cnpj_only_digits s = Spec.normalized s.
Proof.
  intros Hne. rewrite only_digits_unfold, decide_False by done.
  unfold Spec.normalized, Spec.pad14. by rewrite len_strip.
Qed.

Lemma len_only_digits s :
  Py.len (_cnpj_only_digits s) =
    if decide (Spec.digit_count s = 0) then 0 else Nat.max 14 (Spec.digit_count s).
Proof.
  rewrite only_digits_unfold. case_decide; [done|].
  rewrite len_str_of, length_app, length_replicate.
  fold (Py.len (Spec.strip s)). rewrite len_strip. lia.
Qed.

Lemma only_digits_digit_string s : Spec.digit_string (_cnpj_only_digits s).
Proof.
  unfold Spec.digit_string. rewrite only_digits_unfold. case_decide.
  - constructor.
  - rewrite chars_str_of. apply Forall_app. split; [|apply strip_digits].
    by apply Forall_replicate.
Qed.

Lemma len_normalized s : Spec.digit_count s ≤ 14 → Py.len (Spec.normalized s) = 14.
Proof.
  intros H. unfold Spec.normalized, Spec.pad14.
  rewrite len_str_of, length_app, length_replicate.
  fold (Py.len (Spec.strip s)). rewrite len_strip. lia.
Qed.

(** C4 (as amended): [_cnpj_only_digits] returns the empty string when the
    input has no digit and otherwise the input's digits left-padded with
    zeros; its output has length 0 for no digit, exactly 14 for 1 to 14
    digits, and the number of digits when there are more than 14. *)
Theorem cnpj_only_digits_length (s : string) :
  (Spec.digit_count s = 0 → _cnpj_only_digits s = "")
  ∧ (Spec.digit_count s ≠ 0 →
       _cnpj_only_digits s =
         Py.str_of (replicate (14 - Spec.digit_count s) Py.zero
                    ++ Py.chars (Spec.strip s)))
  ∧ (Spec.digit_count s ≤ 14 →
       Py.len (_cnpj_only_digits s) = 0 ∨ Py.len (_cnpj_only_digits s) = 14)
  ∧ (14 < Spec.digit_count s →
       Py.len (_cnpj_only_digits s) = Spec.digit_count s).
Proof.
  rewrite len_only_digits, only_digits_unfold.
  repeat split; intros H; case_decide; try done; try lia.
Qed.

Lemma cnpj_only_digits_length_witness :
  _cnpj_only_digits "11.222.333/0001-81" = "11222333000181"
  ∧ _cnpj_only_digits "42" = "00000000000042"
  ∧ _cnpj_only_digits "n/a" = ""
  ∧ Py.len (_cnpj_only_digits "123456789012345") = 15.
Proof.
  destruct (cnpj_only_digits_length "11.222.333/0001-81") as (_ & H1 & _).
  destruct (cnpj_only_digits_length "42") as (_ & H2 & _).
  destruct (cnpj_only_digits_length "n/a") as (H3 & _).
  destruct (cnpj_only_digits_length "123456789012345") as (_ & _ & _ & H4).
  split; [|split; [|split]].
  - apply H1. vm_compute. lia.
  - apply H2. vm_compute. lia.
  - apply H3. reflexivity.
  - apply H4. vm_compute. lia.
Defined.

(** C4 (as stated) fails: fifteen digits come back as fifteen characters. *)
Lemma cnpj_only_digits_length_counterexample :
  ¬ (Py.len (_cnpj_only_digits "123456789012345") = 0
     ∨ Py.len (_cnpj_only_digits "123456789012345") = 14).
Proof. vm_compute. intros [H|H]; discriminate H. Qed.

(** ** Validation *)

Lemma is_valid_no_digit s : Spec.digit_count s = 0 → _is_valid_cnpj s = Return false.
Proof.
  intros H. unfold _is_valid_cnpj.
  rewrite only_digits_unfold, decide_True by done. done.
Qed.

Lemma is_valid_too_long s : 14 < Spec.digit_count s → _is_valid_cnpj s = Return false.
Proof.
  intros H. unfold _is_valid_cnpj. cbv zeta.
  rewrite (bool_decide_eq_true_2 (14 < Py.len (_cnpj_only_digits s))).
  - by rewrite orb_true_r.
  - rewrite len_only_digits. case_decide; lia.
Qed.

Lemma first12_digit_string s : Spec.digit_string s → Spec.digit_string (Spec.first12 s).
Proof.
  unfold Spec.digit_string, Spec.first12. rewrite chars_str_of.
  apply Forall_take.
Qed.

Lemma is_valid_normalized s :
  1 ≤ Spec.digit_count s ≤ 14 →
  _is_valid_cnpj s =
    Return (bool_decide (Spec.last2 (Spec.normalized s)
                         = Spec.checkDigits (Spec.first12 (Spec.normalized s)))).
Proof.
  intros H. unfold _is_valid_cnpj. cbv zeta.
  pose proof (only_digits_digit_string s) as Hd.
  rewrite only_digits_normalized in * by lia.
  pose proof (len_normalized s ltac:(lia)) as Hlen.
  rewrite (bool_decide_eq_false_2 (Spec.normalized s = "")).
  2:{ intros He. rewrite He in Hlen. discriminate Hlen. }
  rewrite (bool_decide_eq_false_2 (14 < _)) by lia.
  cbn [orb]. unfold Py.slice.
  rewrite slice_list_but_last2, slice_list_last2.
  fold (Py.len (Spec.normalized s)). rewrite Hlen.
  change (14 - 2) with 12.
  fold (Spec.first12 (Spec.normalized s)). fold (Spec.last2 (Spec.normalized s)).
  rewrite generate_dv_digits by by apply first12_digit_string.
  reflexivity.
Qed.

(** [_is_valid_cnpj] is a total predicate: it never raises. *)
Lemma is_valid_total s : ∃ b, _is_valid_cnpj s = Return b.
Proof.
  destruct (decide (Spec.digit_count s = 0)) as [H0|H0].
  - eexists. by apply is_valid_no_digit.
  - destruct (decide (Spec.digit_count s ≤ 14)) as [H14|H14].
    + eexists. apply is_valid_normalized. lia.
    + eexists. apply is_valid_too_long. lia.
Qed.

(** C2: for an input with at most 14 digit characters [_is_valid_cnpj] is
    true exactly when there is at least one digit and the last two characters
    of the stripped, left-padded 14-character form are the check digits of
    its first 12 characters; an input with more than 14 digit characters is
    invalid; and the predicate never raises. *)
Theorem is_valid_cnpj_spec (s : string) :
  (Spec.digit_count s ≤ 14 →
     (_is_valid_cnpj s = Return true ↔
        1 ≤ Spec.digit_count s
        ∧ _generate_cnpj_dv (Spec.first12 (Spec.normalized s))
          = Return (Spec.last2 (Spec.normalized s))))
  ∧ (14 < Spec.digit_count s → _is_valid_cnpj s = Return false)
  ∧ (∃ b, _is_valid_cnpj s = Return b).
Proof.
  split; [|split; [apply is_valid_too_long|apply is_valid_total]].
  intros H14. destruct (decide (Spec.digit_count s = 0)) as [H0|H0].
  - rewrite is_valid_no_digit by done. split; [done|lia].
  - rewrite is_valid_normalized by lia.
    rewrite generate_dv_digits.
    2:{ apply first12_digit_string. rewrite <- only_digits_normalized by done.
        apply only_digits_digit_string. }
    split.
    + intros [= Hb]. apply bool_decide_eq_true_1 in Hb. split; [lia|by f_equal].
    + intros [_ [= Hb]]. f_equal. by apply bool_decide_eq_true_2.
Qed.

Lemma is_valid_cnpj_spec_witness :
  (_is_valid_cnpj "11.222.333/0001-81" = Return true ↔
     1 ≤ Spec.digit_count "11.222.333/0001-81"
     ∧ _generate_cnpj_dv (Spec.first12 (Spec.normalized "11.222.333/0001-81"))
       = Return (Spec.last2 (Spec.normalized "11.222.333/0001-81")))
  ∧ _is_valid_cnpj "112223330001815" = Return false.
Proof.
  split.
  - apply (is_valid_cnpj_spec "11.222.333/0001-81"). vm_compute. lia.
  - apply (is_valid_cnpj_spec "112223330001815"). vm_compute. lia.
Defined.

(** C10: short inputs are not rejected for being short: the single character
    0 has one digit, is padded to fourteen zeros, whose check digits are 00,
    and is accepted. *)
Theorem is_valid_lenient_padding :
  ∃ s, 1 ≤ Spec.digit_count s ≤ 13 ∧ _is_valid_cnpj s = Return true
       ∧ s = "0" ∧ _cnpj_only_digits s = "00000000000000"
       ∧ _generate_cnpj_dv "000000000000" = Return "00".
Proof.
  exists "0". split; [vm_compute; lia|]. by vm_compute.
Qed.

(** ** Split, unsplit and canonical format *)

Lemma slice_prefix s (k : nat) :
  Py.slice None (Some (Z.of_nat k)) s = Py.str_of (take k (Py.chars s)).
Proof. unfold Py.slice. by rewrite slice_list_prefix. Qed.

Lemma slice_suffix s (k : nat) :
  Py.slice (Some (Z.of_nat k)) None s = Py.str_of (drop k (Py.chars s)).
Proof. unfold Py.slice. by rewrite slice_list_suffix. Qed.

Lemma slice_middle s (i j : nat) :
  i ≤ j →
  Py.slice (Some (Z.of_nat i)) (Some (Z.of_nat j)) s
  = Py.str_of (take (j - i) (drop i (Py.chars s))).
Proof. intros H. unfold Py.slice. by rewrite slice_list_middle. Qed.

Lemma split_unfold s :
  _split_cnpj s =
    (Py.str_of (take 8 (Py.chars (_cnpj_only_digits s))),
     Py.str_of (take 4 (drop 8 (Py.chars (_cnpj_only_digits s)))),
     Py.str_of (drop 12 (Py.chars (_cnpj_only_digits s)))).
Proof.
  unfold _split_cnpj. cbv zeta.
  rewrite (slice_prefix _ 8), (slice_suffix _ 12), (slice_middle _ 8 12) by lia.
  reflexivity.
Qed.

(** Whenever the input has a digit, joining the split components gives the
    normal form back. *)
Lemma join_split_digits s :
  Spec.digit_count s ≠ 0 → join_split s = _cnpj_only_digits s.
Proof.
  intros Hne. unfold join_split. rewrite split_unfold. unfold _unsplit_cnpj.
  pose proof (len_only_digits s) as Hlen. rewrite decide_False in Hlen by done.
  unfold Py.len in Hlen.
  set (l := Py.chars (_cnpj_only_digits s)) in *.
  rewrite !zfill_long.
  - rewrite <- !str_of_app.
    rewrite <- (str_of_chars (_cnpj_only_digits s)). fold l. f_equal.
    rewrite <- (take_drop 8 l) at 4. f_equal.
    rewrite <- (take_drop 4 (drop 8 l)) at 2. f_equal.
    by rewrite drop_drop.
  - rewrite len_str_of, length_drop. lia.
  - rewrite len_str_of, length_take, length_drop. lia.
  - rewrite len_str_of, length_take. lia.
Qed.

(** For digit strings of at most 14 characters, having a padded 14-digit
    normal form is the same as not being empty. *)
Lemma padded_iff_nonempty x :
  Spec.digit_string x → Py.len x ≤ 14 →
  Py.len (_cnpj_only_digits x) = 14 ↔ x ≠ "".
Proof.
  intros Hx Hlen. rewrite len_only_digits, (digit_count_digit_string x Hx).
  split.
  - intros H ->. discriminate H.
  - intros Hne. case_decide as H0; [|lia].
    destruct Hne. apply chars_inj. by apply nil_length_inv.
Qed.

(** C5: for every digit string of at most 14 characters that has a padded
    form, i.e. whose normal form is 14 digits, splitting that normal form at
    [0:8], [8:12], [12:14] and joining the zero-padded components gives
    [_cnpj_only_digits] back. *)
Theorem join_split_roundtrip (x : string) :
  Spec.digit_string x → Py.len x ≤ 14 → Py.len (_cnpj_only_digits x) = 14 →
  join_split x = _cnpj_only_digits x
  ∧ _split_cnpj x =
      (Py.slice (Some 0%Z) (Some 8%Z) (_cnpj_only_digits x),
       Py.slice (Some 8%Z) (Some 12%Z) (_cnpj_only_digits x),
       Py.slice (Some 12%Z) (Some 14%Z) (_cnpj_only_digits x)).
Proof.
  intros Hx Hlen Hpad. split.
  - apply join_split_digits. intros H0.
    rewrite len_only_digits, decide_True in Hpad by done. discriminate Hpad.
  - rewrite split_unfold.
    rewrite (slice_middle _ 0 8), (slice_middle _ 8 12), (slice_middle _ 12 14) by lia.
    rewrite drop_0. repeat f_equal.
    unfold Py.len in Hpad. symmetry. apply take_ge. rewrite length_drop. lia.
Qed.

Lemma join_split_roundtrip_witness :
  join_split "191" = _cnpj_only_digits "191"
  ∧ _split_cnpj "191" =
      (Py.slice (Some 0%Z) (Some 8%Z) (_cnpj_only_digits "191"),
       Py.slice (Some 8%Z) (Some 12%Z) (_cnpj_only_digits "191"),
       Py.slice (Some 12%Z) (Some 14%Z) (_cnpj_only_digits "191")).
Proof.
  apply (join_split_roundtrip "191").
  - unfold Spec.digit_string. simpl. repeat constructor.
  - vm_compute. lia.
  - reflexivity.
Defined.

Lemma list_of_length_14 {A} (l : list A) :
  length l = 14 →
  ∃ a b c d e f g h i j k m n o, l = [a; b; c; d; e; f; g; h; i; j; k; m; n; o].
Proof.
  intros H.
  do 14 (destruct l as [|? l]; [discriminate H|]).
  destruct l; [|discriminate H]. by repeat eexists.
Qed.

(** The canonical rendering of an input with 1 to 14 digits has the shape
    NN.NNN.NNN/NNNN-NN, and its digits are the 14 normalised digits. *)
Lemma format_full_cnpj_shape s :
  1 ≤ Spec.digit_count s ≤ 14 →
  Spec.has_canonical_shape (_format_full_cnpj s)
  ∧ Spec.strip (_format_full_cnpj s) = Spec.normalized s.
Proof.
  intros H. unfold _format_full_cnpj. cbv zeta.
  rewrite (slice_prefix _ 2), (slice_suffix _ 12), (slice_middle _ 2 5),
    (slice_middle _ 5 8), (slice_middle _ 8 12) by lia.
  pose proof (only_digits_digit_string s) as Hd.
  rewrite only_digits_normalized in * by lia.
  pose proof (len_normalized s ltac:(lia)) as Hlen.
  unfold Spec.digit_string, Py.len in *.
  destruct (list_of_length_14 _ Hlen)
    as (a & b & c & d & e & f & g & h & i & j & k & m & n & o & Hl).
  rewrite Hl in *. clear Hlen.
  repeat match goal with
         | Hf : Forall _ (_ :: _) |- _ => apply Forall_cons in Hf as [? Hf]
         end.
  cbn [take drop firstn skipn Py.str_of String.string_of_list_ascii].
  split.
  - unfold Spec.has_canonical_shape. rewrite !chars_app. cbn.
    repeat match goal with
           | Hc : Is_true (Py.isdigit ?c) |- _ => apply Is_true_eq_true in Hc; rewrite Hc; clear Hc
           end.
    reflexivity.
  - unfold Spec.strip. rewrite !chars_app. cbn -[filter].
    repeat (first [rewrite filter_cons_True by assumption
                  | rewrite filter_cons_False by (intros Hx; exact Hx)]).
    rewrite <- (str_of_chars (Spec.normalized s)), Hl. reflexivity.
Qed.

(** ** Row mapper *)

Lemma rbind_inv {A B} (m : result A) (k : A → result B) (y : B) :
  rbind m k = Return y → ∃ a, m = Return a ∧ k a = Return y.
Proof. destruct m as [a|e]; simpl; [by exists a|discriminate]. Qed.

Lemma rbind_Return {A B} (m : result A) (k : A → result B) (a : A) :
  m = Return a → rbind m k = k a.
Proof. by intros ->. Qed.

Lemma index_map_inv {A B} (f : A → B) (l : list A) (i : nat) (y : B) :
  index (map f l) i = Return y → ∃ v, l !! i = Some v ∧ y = f v.
Proof.
  revert i. induction l as [|x l IH]; intros [|i]; unfold index; simpl; try done.
  - intros [= <-]. by exists x.
  - apply IH.
Qed.

Lemma index_map_lt {A B} (f : A → B) (l : list A) (i : nat) :
  i < length l → ∃ v, l !! i = Some v ∧ index (map f l) i = Return (f v).
Proof.
  revert i. induction l as [|x l IH]; intros [|i]; unfold index; simpl; try lia.
  - intros _. by exists x.
  - intros H. apply IH. lia.
Qed.

(** Walks through the positional reads of a row mapper that returned. *)
Ltac read_columns H :=
  repeat lazymatch type of H with
         | rbind (index _ _) _ = Return _ =>
             let Hi := fresh "Hcol" in
             apply rbind_inv in H as (? & Hi & H);
             apply index_map_inv in Hi as (? & ? & ->)
         end.

(** Performs the positional reads of a row that is long enough. *)
Ltac write_columns data :=
  repeat lazymatch goal with
         | |- context [rbind (index (map ?f data) ?i) ?k] =>
             let Hi := fresh "Hcol" in
             destruct (index_map_lt f data i ltac:(lia)) as (? & _ & Hi);
             rewrite (rbind_Return _ k _ Hi); clear Hi; cbv beta
         end.

(** Every positional attribute of a mapped Company is the coerced value of
    its column. *)
Lemma format_company_columns data cnpj c :
  _format_company_data data cnpj = Return c →
  Forall (λ '(i, field), ∃ v, data !! i = Some v ∧ field c = _always_str_or_none v)
         company_columns.
Proof.
  unfold _format_company_data. destruct (_split_cnpj cnpj) as [[b o] d].
  cbv zeta. intros H. read_columns H. injection H as <-.
  unfold company_columns. repeat constructor; cbn; eauto.
Qed.

Lemma format_partner_columns data cnpj p :
  _format_partner_data data cnpj = Return p →
  Forall (λ '(i, field), ∃ v, data !! i = Some v ∧ field p = _always_str_or_none v)
         partner_columns.
Proof.
  unfold _format_partner_data. destruct (_split_cnpj cnpj) as [[b o] d].
  cbv zeta. intros H. read_columns H. injection H as <-.
  unfold partner_columns. repeat constructor; cbn; eauto.
Qed.

(** A row with the 39 columns of the company relation is mapped to a Company
    whose identifier attributes are derived from the input identifier. *)
Lemma format_company_total data cnpj :
  39 ≤ length data →
  ∃ c, _format_company_data data cnpj = Return c
       ∧ Company.cnpj_completo c = _format_full_cnpj cnpj
       ∧ Company.cnpj_completo_apenas_numeros c = _cnpj_only_digits cnpj
       ∧ (Company.cnpj_basico c, Company.cnpj_ordem c, Company.cnpj_dv c)
         = _split_cnpj cnpj.
Proof.
  intros Hlen. unfold _format_company_data.
  destruct (_split_cnpj cnpj) as [[b o] d]. cbv zeta.
  write_columns data. eexists. split; [reflexivity|]. by cbn.
Qed.

Lemma format_partner_total data cnpj :
  11 ≤ length data →
  ∃ p, _format_partner_data data cnpj = Return p
       ∧ Partner.cnpj_completo p = _format_full_cnpj cnpj
       ∧ Partner.cnpj_completo_apenas_numeros p = _cnpj_only_digits cnpj
       ∧ (Partner.cnpj_basico p, Partner.cnpj_ordem p, Partner.cnpj_dv p)
         = _split_cnpj cnpj.
Proof.
  intros Hlen. unfold _format_partner_data.
  destruct (_split_cnpj cnpj) as [[b o] d]. cbv zeta.
  write_columns data. eexists. split; [reflexivity|]. by cbn.
Qed.

(** C6: the coercion maps the string None, the empty string and an absent
    value to no value, any other non-string value to its string form, and
    passes every other string through unchanged; and each positional
    attribute of a mapped Company or Partner is this coercion of the row
    value at the attribute's position. *)
Theorem always_str_or_none_uniform :
  (∀ v, v = PyStr "None" ∨ v = PyStr "" ∨ v = PyNone →
        _always_str_or_none v = None)
  ∧ (∀ v, isinstance_str v = false → v ≠ PyNone →
          _always_str_or_none v = Some (py_str v))
  ∧ (∀ s, s ≠ "None" → s ≠ "" → _always_str_or_none (PyStr s) = Some s)
  ∧ (∀ data cnpj c, _format_company_data data cnpj = Return c →
       Forall (λ '(i, field), ∃ v, data !! i = Some v
                                   ∧ field c = _always_str_or_none v)
              company_columns)
  ∧ (∀ data cnpj p, _format_partner_data data cnpj = Return p →
       Forall (λ '(i, field), ∃ v, data !! i = Some v
                                   ∧ field p = _always_str_or_none v)
              partner_columns).
Proof.
  split; [|split; [|split; [|split]]].
  - by intros v [->|[->| ->]].
  - by intros [ | | | | ] Hs Hn.
  - intros s H1 H2. unfold _always_str_or_none. simpl.
    by rewrite !bool_decide_eq_false_2.
  - apply format_company_columns.
  - apply format_partner_columns.
Qed.

Lemma always_str_or_none_uniform_witness :
  _always_str_or_none (PyStr "None") = None
  ∧ _always_str_or_none (PyInt 42) = Some "42"
  ∧ _always_str_or_none (PyStr "ACME") = Some "ACME"
  ∧ (∃ c, _format_company_data company_row "11222333000181" = Return c
          ∧ Forall (λ '(i, field), ∃ v, company_row !! i = Some v
                                        ∧ field c = _always_str_or_none v)
                   company_columns)
  ∧ (∃ p, _format_partner_data (partner_row "MARIA") "11222333000181" = Return p
          ∧ Forall (λ '(i, field), ∃ v, partner_row "MARIA" !! i = Some v
                                        ∧ field p = _always_str_or_none v)
                   partner_columns).
Proof.
  destruct always_str_or_none_uniform as (H1 & H2 & H3 & H4 & H5).
  split; [apply H1; by left|].
  split; [apply (H2 (PyInt 42)); [reflexivity|discriminate]|].
  split; [apply H3; discriminate|].
  split.
  - eexists. split; [vm_compute; reflexivity|].
    apply (H4 company_row "11222333000181"). vm_compute. reflexivity.
  - eexists. split; [vm_compute; reflexivity|].
    apply (H5 (partner_row "MARIA") "11222333000181"). vm_compute. reflexivity.
Defined.

(** ** Repository *)

Lemma rbind_raise_inv {A B} (m : result A) (k : A → result B) (e : exn) :
  rbind m k = Raise e → m = Raise e ∨ ∃ a, m = Return a ∧ k a = Raise e.
Proof.
  destruct m as [a|e']; simpl; intros H.
  - right. by exists a.
  - left. by injection H as ->.
Qed.

Lemma index_raises {A} (l : list A) (i : nat) (e : exn) :
  index l i = Raise e → e = IndexError.
Proof. unfold index. destruct (l !! i); by intros [=]. Qed.

Ltac fail_columns H :=
  repeat lazymatch type of H with
         | rbind (index _ _) _ = Raise _ =>
             apply rbind_raise_inv in H as [H|(? & _ & H)];
             [by apply index_raises in H|]
         end.

(** The row mappers raise nothing but [IndexError]. *)
Lemma format_company_raises data cnpj e :
  _format_company_data data cnpj = Raise e → e = IndexError.
Proof.
  unfold _format_company_data. destruct (_split_cnpj cnpj) as [[b o] d].
  cbv zeta. intros H. fail_columns H. discriminate H.
Qed.

Lemma format_partner_raises data cnpj e :
  _format_partner_data data cnpj = Raise e → e = IndexError.
Proof.
  unfold _format_partner_data. destruct (_split_cnpj cnpj) as [[b o] d].
  cbv zeta. intros H. fail_columns H. discriminate H.
Qed.

Lemma comprehension_returns {A B} (f : A → result B) (l : list A) (ys : list B) :
  comprehension f l = Return ys →
  length ys = length l ∧ Forall2 (λ x y, f x = Return y) l ys.
Proof.
  revert ys. induction l as [|x l IH]; intros ys; simpl.
  - intros [= <-]. split; [done|constructor].
  - intros H. apply rbind_inv in H as (y & Hy & H).
    apply rbind_inv in H as (ys' & Hys & [= <-]).
    destruct (IH _ Hys) as [Hlen Hall]. split; [simpl; lia|by constructor].
Qed.

Lemma comprehension_total {A B} (f : A → result B) (l : list A) :
  Forall (λ x, ∃ y, f x = Return y) l → ∃ ys, comprehension f l = Return ys.
Proof.
  induction 1 as [|x l [y Hy] _ [ys Hys]]; simpl; [by eexists|].
  rewrite Hy, Hys. by eexists.
Qed.

Lemma comprehension_raises {A B} (f : A → result B) (l : list A) (e : exn) :
  comprehension f l = Raise e → ∃ x, x ∈ l ∧ f x = Raise e.
Proof.
  induction l as [|x l IH]; simpl; [discriminate|].
  intros H. apply rbind_raise_inv in H as [H|(y & _ & H)].
  - exists x. split; [left|done].
  - apply rbind_raise_inv in H as [H|(ys & _ & H)]; [|discriminate H].
    destruct (IH H) as (x' & Hin & Hx'). exists x'. split; [by right|done].
Qed.

(** What a query does to the world and what it hands back. *)
Lemma select_unfold db c data w :
  _select db c data w =
    match refuse db with
    | Some msg => (Raise (DatabaseError msg), w)
    | None =>
        (match answer db c data with
         | ExecuteError msg => Raise (DatabaseError msg)
         | Rows rows None => Return rows
         | Rows _ (Some msg) => Raise (DatabaseError msg)
         end,
         {| open_connections :=
              match answer db c data with
              | Rows _ None => open_connections w
              | _ => S (open_connections w)
              end;
            open_cursors := open_cursors w;
            queries := queries w ++ [(c, data)] |})
    end.
Proof.
  unfold _select, local_connection, io_bind, psycopg2_connect, with_cursor,
    cursor_execute, cursor_iterate, io_ret, io_raise, connection_close.
  destruct (refuse db); [done|].
  destruct (answer db c data) as [msg|rows [msg|]]; reflexivity.
Qed.

Lemma get_company_invalid db cnpj w :
  _is_valid_cnpj cnpj = Return false →
  get_company db cnpj w = (Raise (InvalidCNPJException (invalid_message cnpj)), w).
Proof. intros H. unfold get_company, io_bind, io_lift. by rewrite H. Qed.

Lemma get_company_valid db cnpj w :
  _is_valid_cnpj cnpj = Return true →
  get_company db cnpj w =
    (match (_select db select_resposta_cnpj (company_filter cnpj) w).1 with
     | Return [] => Return None
     | Return (first :: _) =>
         do company <- _format_company_data first cnpj; Return (Some company)
     | Raise e => Raise e
     end,
     (_select db select_resposta_cnpj (company_filter cnpj) w).2).
Proof.
  intros H. unfold get_company, company_filter, io_bind, io_lift. rewrite H.
  cbn [negb]. destruct (_split_cnpj cnpj) as [[b o] d].
  destruct (_select _ _ _ w) as [[[|first rest]|e] w']; [done| |done].
  rewrite bool_decide_eq_false_2 by done. cbn -[_format_company_data].
  unfold io_ret. by destruct (_format_company_data first cnpj).
Qed.

Lemma get_partners_invalid db cnpj w :
  _is_valid_cnpj cnpj = Return false →
  get_partners db cnpj w = (Raise (InvalidCNPJException (invalid_message cnpj)), w).
Proof. intros H. unfold get_partners, io_bind, io_lift. by rewrite H. Qed.

Lemma get_partners_valid db cnpj w :
  _is_valid_cnpj cnpj = Return true →
  get_partners db cnpj w =
    (match (_select db select_resposta_socios (partners_filter cnpj) w).1 with
     | Return results =>
         do partners <-
           comprehension (λ result, _format_partner_data result cnpj) results;
         Return (length results, partners)
     | Raise e => Raise e
     end,
     (_select db select_resposta_socios (partners_filter cnpj) w).2).
Proof.
  intros H. unfold get_partners, partners_filter, io_bind, io_lift. rewrite H.
  cbn [negb]. unfold _split_cnpj. cbv zeta.
  destruct (_select _ _ _ w) as [[results|e] w']; [|done].
  cbn -[_format_partner_data comprehension].
  unfold io_ret. by destruct (comprehension _ results).
Qed.

Lemma valid_has_digit cnpj :
  _is_valid_cnpj cnpj = Return true → Spec.digit_count cnpj ≠ 0.
Proof. intros H H0. rewrite is_valid_no_digit in H by done. discriminate H. Qed.

Lemma select_rows db c data w rows :
  refuse db = None → answer db c data = Rows rows None →
  (_select db c data w).1 = Return rows.
Proof. intros Hr Ha. by rewrite select_unfold, Hr, Ha. Qed.

Lemma select_never_invalid db c data w msg :
  (_select db c data w).1 ≠ Raise (InvalidCNPJException msg).
Proof.
  rewrite select_unfold. destruct (refuse db); [done|].
  by destruct (answer db c data) as [?|? [?|]].
Qed.

(** C3: [get_company] raises [InvalidCNPJException] exactly when the
    identifier is invalid, and then leaves the world untouched: no connection
    is opened and no query is sent.  For a valid identifier an empty result
    gives [None], and a non-empty result gives the mapping of its first row,
    whatever rows follow. *)
Theorem get_company_spec (db : database) (cnpj : string) (w : world) :
  ((∃ msg, (get_company db cnpj w).1 = Raise (InvalidCNPJException msg))
     ↔ _is_valid_cnpj cnpj = Return false)
  ∧ (_is_valid_cnpj cnpj = Return false → (get_company db cnpj w).2 = w)
  ∧ (_is_valid_cnpj cnpj = Return true → refuse db = None →
       (answer db select_resposta_cnpj (company_filter cnpj) = Rows [] None →
          (get_company db cnpj w).1 = Return None)
       ∧ (∀ first rest,
            answer db select_resposta_cnpj (company_filter cnpj)
              = Rows (first :: rest) None →
            (get_company db cnpj w).1 =
              do company <- _format_company_data first cnpj;
              Return (Some company))).
Proof.
  split; [split|split].
  - intros [msg Hraise]. destruct (is_valid_total cnpj) as [[|] Hv]; [|done].
    exfalso. rewrite get_company_valid in Hraise by done. cbn [fst] in Hraise.
    pose proof (select_never_invalid db select_resposta_cnpj
                  (company_filter cnpj) w msg) as Hsel.
    destruct (_select _ _ _ w).1 as [[|first rest]|e];
      [done| |injection Hraise as ->; by destruct Hsel].
    apply rbind_raise_inv in Hraise as [Hraise|(? & _ & Hraise)]; [|done].
    by apply format_company_raises in Hraise.
  - intros Hv. rewrite get_company_invalid by done. by eexists.
  - intros Hv. by rewrite get_company_invalid.
  - intros Hv Hr. rewrite get_company_valid by done. cbn [fst]. split.
    + intros Ha. by rewrite (select_rows _ _ _ _ [] Hr Ha).
    + intros first rest Ha. by rewrite (select_rows _ _ _ _ _ Hr Ha).
Qed.

Lemma get_company_spec_witness :
  (get_company (serving [company_row]) "12345678901234" idle).2 = idle
  ∧ (get_company (serving []) "11222333000181" idle).1 = Return None
  ∧ (get_company (serving [company_row; []]) "11222333000181" idle).1 =
      do company <- _format_company_data company_row "11222333000181";
      Return (Some company).
Proof.
  split; [|split].
  - apply (get_company_spec (serving [company_row]) "12345678901234" idle).
    vm_compute. reflexivity.
  - apply (get_company_spec (serving []) "11222333000181" idle);
      [vm_compute; reflexivity|reflexivity|reflexivity].
  - apply (get_company_spec (serving [company_row; []]) "11222333000181" idle)
      with (rest := [[]]); [vm_compute; reflexivity|reflexivity|reflexivity].
Defined.

(** C7: for a valid identifier [get_partners] sends one query whose only
    parameter is the 8-digit base, and returns the number of rows together
    with the Partners the rows are mapped to, one per row and in the order
    of the rows. *)
Theorem get_partners_spec (db : database) (cnpj : string) (w : world) :
  _is_valid_cnpj cnpj = Return true → refuse db = None →
  partners_filter cnpj
    = <["cnpj_basico" := Spec.base8 (Spec.normalized cnpj)]> ∅
  ∧ queries (get_partners db cnpj w).2
    = queries w ++ [(select_resposta_socios, partners_filter cnpj)]
  ∧ ∀ rows,
      answer db select_resposta_socios (partners_filter cnpj) = Rows rows None →
      (get_partners db cnpj w).1 =
        (do partners <- comprehension (λ r, _format_partner_data r cnpj) rows;
         Return (length rows, partners))
      ∧ (∀ n partners,
           (get_partners db cnpj w).1 = Return (n, partners) →
           n = length partners ∧ n = length rows
           ∧ Forall2 (λ r p, _format_partner_data r cnpj = Return p) rows partners)
      ∧ (Forall (λ r, 11 ≤ length r) rows →
           ∃ partners, (get_partners db cnpj w).1 = Return (length rows, partners)).
Proof.
  intros Hv Hr. rewrite get_partners_valid by done. cbn [fst snd].
  split; [|split].
  - unfold partners_filter. rewrite (slice_prefix _ 8).
    by rewrite only_digits_normalized by by apply valid_has_digit.
  - by rewrite select_unfold, Hr.
  - intros rows Ha. rewrite (select_rows _ _ _ _ _ Hr Ha).
    split; [done|split].
    + intros n partners H. apply rbind_inv in H as (ps & Hps & [= <- <-]).
      apply comprehension_returns in Hps as [Hlen Hall]. by rewrite Hlen.
    + intros Hall.
      destruct (comprehension_total (λ r, _format_partner_data r cnpj) rows)
        as [ps Hps].
      * eapply Forall_impl; [exact Hall|]. intros r Hlen.
        destruct (format_partner_total r cnpj Hlen) as (p & Hp & _). by exists p.
      * exists ps. by rewrite Hps.
Qed.

Lemma get_partners_spec_witness :
  (get_partners
     (serving [partner_row "ANA"; partner_row "BRUNO"; partner_row "CARLA"])
     "11222333000181" idle).1
  = Return (3, [partner_of "ANA"; partner_of "BRUNO"; partner_of "CARLA"]).
Proof.
  destruct (get_partners_spec
              (serving [partner_row "ANA"; partner_row "BRUNO"; partner_row "CARLA"])
              "11222333000181" idle) as (_ & _ & H);
    [vm_compute; reflexivity|reflexivity|].
  destruct (H [partner_row "ANA"; partner_row "BRUNO"; partner_row "CARLA"])
    as (Hrun & _); [reflexivity|].
  rewrite Hrun. vm_compute. reflexivity.
Defined.

(** C8: for every input that normalises to exactly 14 digits, valid or not,
    [_format_full_cnpj] has the shape NN.NNN.NNN/NNNN-NN and its digits are
    those 14 digits in order; and [get_company] on 11222333000181, served one
    row of the company relation, returns a Company whose [cnpj_completo] is
    11.222.333/0001-81. *)
Theorem format_full_cnpj_canonical :
  (∀ s, 1 ≤ Spec.digit_count s ≤ 14 →
        Spec.has_canonical_shape (_format_full_cnpj s)
        ∧ Spec.strip (_format_full_cnpj s) = Spec.normalized s
        ∧ Py.len (Spec.normalized s) = 14)
  ∧ (∀ db w r,
       refuse db = None →
       answer db select_resposta_cnpj
         (<["cnpj_basico" := "11222333"]>
            (<["cnpj_ordem" := "0001"]> (<["cnpj_dv" := "81"]> ∅)))
         = Rows [r] None →
       39 ≤ length r →
       ∃ company, (get_company db "11222333000181" w).1 = Return (Some company)
                  ∧ Company.cnpj_completo company = "11.222.333/0001-81").
Proof.
  split.
  - intros s H. destruct (format_full_cnpj_shape s H) as [Hshape Hdigits].
    split; [done|split; [done|]]. apply len_normalized. lia.
  - intros db w r Hr Ha Hlen.
    assert (_is_valid_cnpj "11222333000181" = Return true) as Hv
      by (vm_compute; reflexivity).
    destruct (format_company_total r "11222333000181" Hlen)
      as (company & Hc & Hfull & _).
    exists company. split; [|by rewrite Hfull].
    rewrite get_company_valid by done. cbn [fst].
    erewrite select_rows; [|done|exact Ha]. cbv beta iota. by rewrite Hc.
Qed.

Lemma format_full_cnpj_canonical_witness :
  Spec.has_canonical_shape (_format_full_cnpj "12345678901234")
  ∧ (∃ company,
       (get_company (serving [company_row]) "11222333000181" idle).1
         = Return (Some company)
       ∧ Company.cnpj_completo company = "11.222.333/0001-81").
Proof.
  destruct format_full_cnpj_canonical as [Hshape Hscenario]. split.
  - apply (Hshape "12345678901234"). vm_compute. lia.
  - apply (Hscenario (serving [company_row]) idle company_row);
      [reflexivity|reflexivity|vm_compute; lia].
Defined.

(** The scoped lookup of the specification returns what [_select] returns
    and releases the connection on every path; [_select] differs from it on
    the paths that raise after the connection was opened. *)
Lemma scoped_select_releases db c data w :
  (scoped_select db c data w).1 = (_select db c data w).1
  ∧ connection_released w (scoped_select db c data w).2
  ∧ open_cursors (scoped_select db c data w).2 = open_cursors w.
Proof.
  rewrite select_unfold.
  unfold scoped_select, finally_close, connection_released, io_bind,
    psycopg2_connect, with_cursor, cursor_execute, cursor_iterate, io_ret,
    io_raise, connection_close.
  destruct (refuse db); [done|].
  by destruct (answer db c data) as [msg|rows [msg|]].
Qed.

(** C9 (as amended): a call of [get_company] or [get_partners] that reaches
    the lookup opens one connection and one cursor on it and sends one query.
    The cursor is closed on every exit path.  The connection is released
    before the call completes whenever the rows of the query were read to the
    end (rows, no rows, also when the row mapper then raises); when the query
    or the iteration raises, the exception leaves the call with the
    connection still open. *)
Theorem lookup_resources (db : database) (cnpj : string) (w : world) :
  _is_valid_cnpj cnpj = Return true → refuse db = None →
  (open_cursors (get_company db cnpj w).2 = open_cursors w
   ∧ queries (get_company db cnpj w).2
     = queries w ++ [(select_resposta_cnpj, company_filter cnpj)]
   ∧ (∀ rows,
        answer db select_resposta_cnpj (company_filter cnpj) = Rows rows None →
        connection_released w (get_company db cnpj w).2)
   ∧ (∀ msg,
        answer db select_resposta_cnpj (company_filter cnpj) = ExecuteError msg
        ∨ (∃ rows, answer db select_resposta_cnpj (company_filter cnpj)
                   = Rows rows (Some msg)) →
        (get_company db cnpj w).1 = Raise (DatabaseError msg)
        ∧ open_connections (get_company db cnpj w).2 = S (open_connections w)))
  ∧ (open_cursors (get_partners db cnpj w).2 = open_cursors w
     ∧ queries (get_partners db cnpj w).2
       = queries w ++ [(select_resposta_socios, partners_filter cnpj)]
     ∧ (∀ rows,
          answer db select_resposta_socios (partners_filter cnpj) = Rows rows None →
          connection_released w (get_partners db cnpj w).2)
     ∧ (∀ msg,
          answer db select_resposta_socios (partners_filter cnpj) = ExecuteError msg
          ∨ (∃ rows, answer db select_resposta_socios (partners_filter cnpj)
                     = Rows rows (Some msg)) →
          (get_partners db cnpj w).1 = Raise (DatabaseError msg)
          ∧ open_connections (get_partners db cnpj w).2 = S (open_connections w))).
Proof.
  intros Hv Hr.
  rewrite get_company_valid, get_partners_valid by done. cbn [fst snd].
  rewrite !select_unfold, Hr. cbn [fst snd open_cursors queries open_connections].
  unfold connection_released. cbn [open_connections].
  split; (split; [done|split; [done|split]]).
  - intros rows Ha. by rewrite Ha.
  - intros msg [Ha|[rows Ha]]; by rewrite Ha.
  - intros rows Ha. by rewrite Ha.
  - intros msg [Ha|[rows Ha]]; by rewrite Ha.
Qed.

Lemma lookup_resources_witness :
  ((get_company (rejecting "syntax error") "11222333000181" idle).1
     = Raise (DatabaseError "syntax error")
   ∧ open_connections
       (get_company (rejecting "syntax error") "11222333000181" idle).2 = 1)
  ∧ open_cursors (get_company (rejecting "syntax error") "11222333000181" idle).2 = 0
  ∧ connection_released idle (get_partners (serving []) "11222333000181" idle).2
  ∧ connection_released idle
      (get_company (serving [[PyInt 1]]) "11222333000181" idle).2.
Proof.
  destruct (lookup_resources (rejecting "syntax error") "11222333000181" idle)
    as ((Hk & _ & _ & Hraise) & _); [vm_compute; reflexivity|reflexivity|].
  destruct (lookup_resources (serving []) "11222333000181" idle)
    as (_ & (_ & _ & Hrel & _)); [vm_compute; reflexivity|reflexivity|].
  destruct (lookup_resources (serving [[PyInt 1]]) "11222333000181" idle)
    as ((_ & _ & Hrel' & _) & _); [vm_compute; reflexivity|reflexivity|].
  split; [apply Hraise; by left|].
  split; [exact Hk|].
  split; [by apply (Hrel [])|by apply (Hrel' [[PyInt 1]])].
Defined.

(** C9 (as stated) fails: when the server rejects the query, the exception
    leaves [get_company] with the connection the call opened still open. *)
Lemma lookup_resources_counterexample :
  (get_company (rejecting "syntax error") "11222333000181" idle).1
    = Raise (DatabaseError "syntax error")
  ∧ ¬ connection_released idle
        (get_company (rejecting "syntax error") "11222333000181" idle).2.
Proof.
  split; [vm_compute; reflexivity|].
  unfold connection_released. vm_compute. discriminate.
Qed.

(** ** Worked examples *)

Example dv_11222333 : _generate_cnpj_dv "112223330001" = Return "81".
Proof. vm_compute. reflexivity. Qed.

Example checkDigits_11222333 : Spec.checkDigits "112223330001" = "81".
Proof. vm_compute. reflexivity. Qed.

Example dv_rejects_letters : _generate_cnpj_dv "11222333000A" = Raise ValueError.
Proof. vm_compute. reflexivity. Qed.

Example valid_11222333 : _is_valid_cnpj "11.222.333/0001-81" = Return true.
Proof. vm_compute. reflexivity. Qed.

Example invalid_12345678901234 : _is_valid_cnpj "12345678901234" = Return false.
Proof. vm_compute. reflexivity. Qed.

Example invalid_empty : _is_valid_cnpj "" = Return false.
Proof. vm_compute. reflexivity. Qed.

Example format_11222333 : _format_full_cnpj "11222333000181" = "11.222.333/0001-81".
Proof. vm_compute. reflexivity. Qed.

Example split_11222333 : _split_cnpj "11.222.333/0001-81" = ("11222333", "0001", "81").
Proof. vm_compute. reflexivity. Qed.

Example str_of_int_samples :
  Py.str_of_int 0 = "0" ∧ Py.str_of_int 42 = "42" ∧ Py.str_of_int (-7) = "-7".
Proof. by vm_compute. Qed.

Example join_split_empty :
  _cnpj_only_digits "" = "" ∧ _split_cnpj "" = ("", "", "")
  ∧ _unsplit_cnpj "" "" "" = "00000000000000".
Proof. by vm_compute. Qed.

Example zfill_sign : Py.zfill 5 "-42" = "-0042".
Proof. vm_compute. reflexivity. Qed.

Example slice_negative : Py.slice (Some (-2)%Z) None "11222333000181" = "81".
Proof. vm_compute. reflexivity. Qed.

Example get_company_empty_input :
  get_company (serving [company_row]) "" idle
  = (Raise (InvalidCNPJException (invalid_message "")), idle).
Proof. vm_compute. reflexivity. Qed.

Example get_company_short_row :
  (get_company (serving [[PyInt 1]]) "11222333000181" idle).1 = Raise IndexError.
Proof. vm_compute. reflexivity. Qed.

(** * Further properties *)

(** ** The normal form is a fixed point *)

Lemma filter_digits_id (l : list ascii) :
  Forall (λ c, Py.isdigit c) l → filter (λ c, Py.isdigit c) l = l.
Proof.
  induction 1 as [|c l Hc Hl IH]; [done|].
  rewrite filter_cons_True by done. by rewrite IH.
Qed.

(** A string of at least 14 digits is its own normal form. *)
Lemma only_digits_fixed t :
  Spec.digit_string t → 14 ≤ Py.len t → _cnpj_only_digits t = t.
Proof.
  intros Ht Hlen. unfold _cnpj_only_digits.
  change (Py.re_sub_non_digits t) with (Spec.strip t).
  rewrite strip_digit_string by done.
  destruct (decide (t = "")) as [->|_]; [done|].
  apply zfill_long. lia.
Qed.

(** Whatever strips to a normal form has that normal form. *)
Lemma only_digits_of_strip t s :
  Spec.strip t = _cnpj_only_digits s → _cnpj_only_digits t = _cnpj_only_digits s.
Proof.
  intros Ht. unfold _cnpj_only_digits at 1.
  change (Py.re_sub_non_digits t) with (Spec.strip t). rewrite Ht.
  destruct (decide (_cnpj_only_digits s = "")) as [H|H]; [done|].
  apply zfill_long. rewrite len_only_digits.
  case_decide as H0; [|lia].
  rewrite only_digits_unfold, decide_True in H by done. done.
Qed.

(** The codec functions look at their argument through its normal form only. *)
Lemma is_valid_normal_form s t :
  _cnpj_only_digits s = _cnpj_only_digits t → _is_valid_cnpj s = _is_valid_cnpj t.
Proof. intros H. unfold _is_valid_cnpj. by rewrite H. Qed.

Lemma split_normal_form s t :
  _cnpj_only_digits s = _cnpj_only_digits t → _split_cnpj s = _split_cnpj t.
Proof. intros H. unfold _split_cnpj. by rewrite H. Qed.

Lemma format_normal_form s t :
  _cnpj_only_digits s = _cnpj_only_digits t → _format_full_cnpj s = _format_full_cnpj t.
Proof. intros H. unfold _format_full_cnpj. by rewrite H. Qed.

Lemma only_digits_idem s : _cnpj_only_digits (_cnpj_only_digits s) = _cnpj_only_digits s.
Proof.
  apply only_digits_of_strip, strip_digit_string, only_digits_digit_string.
Qed.

(** X1: normalising is idempotent, and validation, splitting and formatting
    give the same result on an input and on its normal form. *)
Theorem only_digits_idempotent (s : string) :
  _cnpj_only_digits (_cnpj_only_digits s) = _cnpj_only_digits s
  ∧ _is_valid_cnpj (_cnpj_only_digits s) = _is_valid_cnpj s
  ∧ _split_cnpj (_cnpj_only_digits s) = _split_cnpj s
  ∧ _format_full_cnpj (_cnpj_only_digits s) = _format_full_cnpj s.
Proof.
  pose proof (only_digits_idem s) as H.
  split; [done|]. split; [by apply is_valid_normal_form|].
  split; [by apply split_normal_form|by apply format_normal_form].
Qed.

(** ** Formatting and normalising *)

Lemma format_chars s :
  Py.chars (_format_full_cnpj s) =
    let l := Py.chars (_cnpj_only_digits s) in
    take 2 l ++ ["."%char] ++ take 3 (drop 2 l) ++ ["."%char]
    ++ take 3 (drop 5 l) ++ ["/"%char] ++ take 4 (drop 8 l) ++ ["-"%char]
    ++ drop 12 l.
Proof.
  unfold _format_full_cnpj. cbv zeta.
  rewrite (slice_prefix _ 2), (slice_suffix _ 12), (slice_middle _ 2 5),
    (slice_middle _ 5 8), (slice_middle _ 8 12) by lia.
  rewrite !chars_app, !chars_str_of. reflexivity.
Qed.

(** The rendering adds four separators to the normal form and nothing else. *)
Lemma len_format s : Py.len (_format_full_cnpj s) = Py.len (_cnpj_only_digits s) + 4.
Proof.
  unfold Py.len. rewrite format_chars. cbv zeta.
  rewrite !length_app, !length_take, !length_drop. cbn [length]. lia.
Qed.

Lemma pieces_reassemble {A} (l : list A) :
  take 2 l ++ take 3 (drop 2 l) ++ take 3 (drop 5 l) ++ take 4 (drop 8 l)
  ++ drop 12 l = l.
Proof.
  rewrite app_assoc, (take_take_drop l 2 3). cbn [Nat.add].
  rewrite app_assoc, (take_take_drop l 5 3). cbn [Nat.add].
  rewrite app_assoc, (take_take_drop l 8 4). cbn [Nat.add].
  apply take_drop.
Qed.

Lemma strip_format s : Spec.strip (_format_full_cnpj s) = _cnpj_only_digits s.
Proof.
  unfold Spec.strip. rewrite format_chars. cbv zeta.
  pose proof (only_digits_digit_string s) as Hd. unfold Spec.digit_string in Hd.
  set (l := Py.chars (_cnpj_only_digits s)) in *.
  rewrite !filter_app.
  rewrite !(filter_digits_id (take _ _)) by by apply Forall_take, Forall_drop || apply Forall_take.
  rewrite (filter_digits_id (drop 12 l)) by by apply Forall_drop.
  rewrite !filter_cons_False by (intros Hx; exact Hx).
  rewrite filter_nil. simpl. rewrite pieces_reassemble.
  apply str_of_chars.
Qed.

Lemma shape_length (shape l : list ascii) :
  Spec.matches shape l = true → length l = length shape.
Proof.
  revert l. induction shape as [|p shape IH]; intros [|c l]; simpl; try done.
  intros H. apply andb_true_iff in H as [_ H]. by rewrite (IH l H).
Qed.

(** X2: the canonical rendering has the same normal form as the input it
    renders, so it is valid exactly when the input is, re-rendering it changes
    nothing, and it is four characters longer than the normal form. *)
Theorem format_then_normalise (s : string) :
  _cnpj_only_digits (_format_full_cnpj s) = _cnpj_only_digits s
  ∧ _is_valid_cnpj (_format_full_cnpj s) = _is_valid_cnpj s
  ∧ _format_full_cnpj (_format_full_cnpj s) = _format_full_cnpj s
  ∧ Py.len (_format_full_cnpj s) = Py.len (_cnpj_only_digits s) + 4.
Proof.
  pose proof (only_digits_of_strip _ _ (strip_format s)) as H.
  split; [done|]. split; [by apply is_valid_normal_form|].
  split; [by apply format_normal_form|apply len_format].
Qed.

(** X3: the rendering has the shape NN.NNN.NNN/NNNN-NN exactly when the input
    has between 1 and 14 digits; an input without digits is rendered as the
    bare separators. *)
Theorem format_shape_iff (s : string) :
  (Spec.has_canonical_shape (_format_full_cnpj s) ↔ 1 ≤ Spec.digit_count s ≤ 14)
  ∧ (Spec.digit_count s = 0 → _format_full_cnpj s = "../-").
Proof.
  split; [split|].
  - intros Hshape. apply shape_length in Hshape.
    fold (Py.len (_format_full_cnpj s)) in Hshape.
    rewrite len_format, len_only_digits in Hshape.
    change (length (Py.chars Spec.canonical_shape)) with 18 in Hshape.
    case_decide; lia.
  - intros H. by apply format_full_cnpj_shape.
  - intros H0. apply chars_inj. rewrite format_chars.
    rewrite only_digits_unfold, decide_True by done. reflexivity.
Qed.

Lemma format_shape_iff_witness :
  _format_full_cnpj "n/a" = "../-"
  ∧ ¬ Spec.has_canonical_shape (_format_full_cnpj "123456789012345").
Proof.
  destruct (format_shape_iff "n/a") as [_ H0].
  destruct (format_shape_iff "123456789012345") as [[H15 _] _].
  split.
  - apply H0. reflexivity.
  - intros Hshape. apply H15 in Hshape. vm_compute in Hshape. lia.
Defined.

(** ** Leading zeros *)

Lemma strip_cons_digit c s :
  Py.isdigit c → Spec.strip (String c s) = String c (Spec.strip s).
Proof.
  intros Hc. unfold Spec.strip. simpl. by rewrite filter_cons_True.
Qed.

Lemma digit_count_cons_digit c s :
  Py.isdigit c → Spec.digit_count (String c s) = S (Spec.digit_count s).
Proof.
  intros Hc. rewrite <- !len_strip, strip_cons_digit by done. reflexivity.
Qed.

(** X4: a leading zero in front of 1 to 13 digits is insignificant: the
    normal form, and with it the verdict of the validation, is unchanged. *)
Theorem leading_zero_insignificant (s : string) :
  1 ≤ Spec.digit_count s ≤ 13 →
  _cnpj_only_digits ("0" +:+ s) = _cnpj_only_digits s
  ∧ _is_valid_cnpj ("0" +:+ s) = _is_valid_cnpj s.
Proof.
  intros H.
  assert (_cnpj_only_digits ("0" +:+ s) = _cnpj_only_digits s) as Heq.
  { change ("0" +:+ s) with (String Py.zero s).
    rewrite !only_digits_unfold, digit_count_cons_digit by done.
    rewrite !decide_False by lia. rewrite strip_cons_digit by done.
    f_equal. cbn [Py.chars String.list_ascii_of_string].
    fold (Py.chars (Spec.strip s)).
    replace (14 - Spec.digit_count s) with (S (14 - S (Spec.digit_count s))) by lia.
    rewrite replicate_S_end, <- app_assoc. reflexivity. }
  split; [done|by apply is_valid_normal_form].
Qed.

Lemma leading_zero_insignificant_witness :
  _cnpj_only_digits ("0" +:+ "191") = _cnpj_only_digits "191"
  ∧ _is_valid_cnpj ("0" +:+ "191") = _is_valid_cnpj "191".
Proof. apply (leading_zero_insignificant "191"). vm_compute. lia. Defined.

(** ** The three components *)

Lemma split_app s :
  let '(b, o, d) := _split_cnpj s in b +:+ o +:+ d = _cnpj_only_digits s.
Proof.
  rewrite split_unfold. rewrite <- !str_of_app.
  rewrite app_assoc, take_take_drop. cbn [Nat.add]. rewrite take_drop.
  apply str_of_chars.
Qed.

(** X5: the components of an input with 1 to 14 digits are 8, 4 and 2 digits
    and concatenate to the normal form; an input without digits has three
    empty components; with more than 14 digits the surplus stays in the third
    component. *)
Theorem split_widths (s : string) :
  let '(b, o, d) := _split_cnpj s in
  b +:+ o +:+ d = _cnpj_only_digits s
  ∧ Spec.digit_string b ∧ Spec.digit_string o ∧ Spec.digit_string d
  ∧ (1 ≤ Spec.digit_count s ≤ 14 → Py.len b = 8 ∧ Py.len o = 4 ∧ Py.len d = 2)
  ∧ (Spec.digit_count s = 0 → b = "" ∧ o = "" ∧ d = "")
  ∧ (14 < Spec.digit_count s →
       Py.len b = 8 ∧ Py.len o = 4 ∧ Py.len d = Spec.digit_count s - 12).
Proof.
  pose proof (split_app s) as Happ. rewrite split_unfold in *.
  pose proof (only_digits_digit_string s) as Hd. unfold Spec.digit_string in *.
  pose proof (len_only_digits s) as Hlen. unfold Py.len in *.
  rewrite !chars_str_of.
  set (l := Py.chars (_cnpj_only_digits s)) in *.
  split; [done|].
  split; [by apply Forall_take|].
  split; [by apply Forall_take, Forall_drop|].
  split; [by apply Forall_drop|].
  rewrite !length_take, !length_drop.
  split; [|split].
  - intros H. rewrite decide_False in Hlen by lia. lia.
  - intros H. rewrite decide_True in Hlen by done.
    apply nil_length_inv in Hlen. by rewrite Hlen.
  - intros H. rewrite decide_False in Hlen by lia. lia.
Qed.

Lemma split_widths_witness :
  (Py.len (_split_cnpj "191").1.1 = 8 ∧ Py.len (_split_cnpj "191").1.2 = 4
   ∧ Py.len (_split_cnpj "191").2 = 2)
  ∧ (Py.len (_split_cnpj "1122233300018100").1.1 = 8
     ∧ Py.len (_split_cnpj "1122233300018100").1.2 = 4
     ∧ Py.len (_split_cnpj "1122233300018100").2
       = Spec.digit_count "1122233300018100" - 12).
Proof.
  pose proof (split_widths "191") as H1.
  pose proof (split_widths "1122233300018100") as H2.
  destruct (_split_cnpj "191") as [[b1 o1] d1].
  destruct (_split_cnpj "1122233300018100") as [[b2 o2] d2].
  destruct H1 as (_ & _ & _ & _ & H1 & _).
  destruct H2 as (_ & _ & _ & _ & _ & _ & H2).
  split; [apply H1|apply H2]; vm_compute; lia.
Defined.

Lemma zfill_digit_string w s :
  Spec.digit_string s →
  Py.chars (Py.zfill w s) = replicate (w - Py.len s) Py.zero ++ Py.chars s.
Proof.
  intros Hs. rewrite <- (str_of_chars s) at 1.
  rewrite zfill_digits by done. by rewrite chars_str_of.
Qed.

(** X6: splitting what [_unsplit_cnpj] joins gives the zero-padded components
    back, provided the components are digit strings of at most 8, 4 and 2
    characters; components of exactly these widths come back unchanged. *)
Theorem split_unsplit (b o d : string) :
  Spec.digit_string b → Spec.digit_string o → Spec.digit_string d →
  Py.len b ≤ 8 → Py.len o ≤ 4 → Py.len d ≤ 2 →
  _split_cnpj (_unsplit_cnpj b o d) = (Py.zfill 8 b, Py.zfill 4 o, Py.zfill 2 d)
  ∧ Py.len (_unsplit_cnpj b o d) = 14
  ∧ (Py.len b = 8 → Py.len o = 4 → Py.len d = 2 →
       _split_cnpj (_unsplit_cnpj b o d) = (b, o, d)).
Proof.
  intros Hb Ho Hd Lb Lo Ld.
  assert (∀ w s, Spec.digit_string s → Py.len s ≤ w →
                 Spec.digit_string (Py.zfill w s) ∧ Py.len (Py.zfill w s) = w)
    as Hfill.
  { intros w s Hs Hw. unfold Spec.digit_string, Py.len.
    rewrite zfill_digit_string by done. split.
    - apply Forall_app. split; [by apply Forall_replicate|done].
    - rewrite length_app, length_replicate. unfold Py.len in *. lia. }
  destruct (Hfill 8 b Hb Lb) as [Db Wb].
  destruct (Hfill 4 o Ho Lo) as [Do Wo].
  destruct (Hfill 2 d Hd Ld) as [Dd Wd].
  assert (_split_cnpj (_unsplit_cnpj b o d)
          = (Py.zfill 8 b, Py.zfill 4 o, Py.zfill 2 d)) as Hsplit.
  { rewrite split_unfold. unfold _unsplit_cnpj.
    rewrite only_digits_fixed.
    - rewrite !chars_app. unfold Py.len in *.
      rewrite take_app_length' by done.
      rewrite drop_app_length' by done.
      rewrite take_app_length' by done.
      rewrite app_assoc, drop_app_length' by (rewrite length_app; lia).
      by rewrite !str_of_chars.
    - unfold Spec.digit_string. rewrite !chars_app.
      by repeat (apply Forall_app; split).
    - unfold Py.len in *. rewrite !chars_app, !length_app. lia. }
  split; [done|split].
  - unfold _unsplit_cnpj, Py.len in *. rewrite !chars_app, !length_app. lia.
  - intros Eb Eo Ed. rewrite Hsplit. by rewrite !zfill_long by lia.
Qed.

Ltac digits := unfold Spec.digit_string; simpl; repeat constructor.

Lemma split_unsplit_witness :
  _split_cnpj (_unsplit_cnpj "191" "1" "") = (Py.zfill 8 "191", Py.zfill 4 "1", Py.zfill 2 "")
  ∧ Py.len (_unsplit_cnpj "191" "1" "") = 14
  ∧ _split_cnpj (_unsplit_cnpj "11222333" "0001" "81") = ("11222333", "0001", "81").
Proof.
  destruct (split_unsplit "191" "1" "") as (H1 & H2 & _);
    [digits|digits|digits|vm_compute; lia|vm_compute; lia|vm_compute; lia|].
  destruct (split_unsplit "11222333" "0001" "81") as (_ & _ & H3);
    [digits|digits|digits|vm_compute; lia|vm_compute; lia|vm_compute; lia|].
  split; [exact H1|split; [exact H2|]].
  apply H3; reflexivity.
Defined.

(** ** Generating and validating check digits *)

Lemma normalized_14_digits s :
  Spec.digit_string s → Py.len s = 14 → Spec.normalized s = s.
Proof.
  intros Hs Hlen. unfold Spec.normalized, Spec.pad14.
  rewrite strip_digit_string, Hlen by done. simpl. apply str_of_chars.
Qed.

Lemma is_valid_base_dv base12 dv :
  Spec.digit_string base12 → Py.len base12 = 12 →
  Spec.digit_string dv → Py.len dv = 2 →
  _is_valid_cnpj (base12 +:+ dv)
  = Return (bool_decide (dv = Spec.checkDigits base12)).
Proof.
  intros Hb Lb Hd Ld.
  assert (Spec.digit_string (base12 +:+ dv)) as Hs.
  { unfold Spec.digit_string. rewrite chars_app. by apply Forall_app. }
  assert (Py.len (base12 +:+ dv) = 14) as Ls.
  { unfold Py.len in *. rewrite chars_app, length_app. lia. }
  rewrite is_valid_normalized by (rewrite digit_count_digit_string by done; lia).
  rewrite normalized_14_digits by done.
  unfold Spec.first12, Spec.last2, Py.len in *. rewrite chars_app.
  rewrite take_app_length', drop_app_length' by done.
  by rewrite !str_of_chars.
Qed.

(** X7: for a 12-digit base, appending two digits gives a valid identifier
    exactly when they are the digits [_generate_cnpj_dv] returns for the
    base; so every base has one and only one valid completion. *)
Theorem generated_dv_validates (base12 : string) :
  Spec.digit_string base12 → Py.len base12 = 12 →
  (∀ dv, Spec.digit_string dv → Py.len dv = 2 →
         (_is_valid_cnpj (base12 +:+ dv) = Return true
          ↔ _generate_cnpj_dv base12 = Return dv))
  ∧ (∃ dv, _generate_cnpj_dv base12 = Return dv
           ∧ _is_valid_cnpj (base12 +:+ dv) = Return true).
Proof.
  intros Hb Lb. rewrite generate_dv_digits by done. split.
  - intros dv Hd Ld. rewrite is_valid_base_dv by done. split.
    + intros [= H]. apply bool_decide_eq_true_1 in H. by rewrite H.
    + intros [= H]. f_equal. by apply bool_decide_eq_true_2.
  - exists (Spec.checkDigits base12). split; [done|].
    destruct (checkDigits_shape base12) as (c1 & c2 & Hcd & H1 & H2).
    rewrite is_valid_base_dv; try done.
    + f_equal. by apply bool_decide_eq_true_2.
    + rewrite Hcd. unfold Spec.digit_string. simpl. by repeat constructor.
    + by rewrite Hcd.
Qed.

Lemma generated_dv_validates_witness :
  (_is_valid_cnpj ("112223330001" +:+ "81") = Return true
   ↔ _generate_cnpj_dv "112223330001" = Return "81")
  ∧ (_is_valid_cnpj ("112223330001" +:+ "80") = Return true
     ↔ _generate_cnpj_dv "112223330001" = Return "80").
Proof.
  destruct (generated_dv_validates "112223330001") as [H _];
    [digits|reflexivity|].
  split; apply H; first [digits|reflexivity].
Defined.

Lemma is_valid_cnpj_iff_helper s :
  1 ≤ Spec.digit_count s ≤ 14 →
  _is_valid_cnpj s = Return true
  ↔ _generate_cnpj_dv (Spec.first12 (Spec.normalized s))
    = Return (Spec.last2 (Spec.normalized s)).
Proof.
  intros H. rewrite is_valid_normalized by lia.
  rewrite generate_dv_digits.
  2:{ apply first12_digit_string. rewrite <- only_digits_normalized by lia.
      apply only_digits_digit_string. }
  split.
  - intros [= Hb]. apply bool_decide_eq_true_1 in Hb. by f_equal.
  - intros [= Hb]. f_equal. by apply bool_decide_eq_true_2.
Qed.

(** X8: an input with 1 to 14 digits is valid exactly when the check
    component of its split is what [_generate_cnpj_dv] returns for base and
    order joined. *)
Theorem valid_iff_split_checks (s : string) :
  1 ≤ Spec.digit_count s ≤ 14 →
  let '(b, o, d) := _split_cnpj s in
  _is_valid_cnpj s = Return true ↔ _generate_cnpj_dv (b +:+ o) = Return d.
Proof.
  intros H. rewrite split_unfold.
  rewrite only_digits_normalized by lia.
  rewrite <- str_of_app, take_take_drop. cbn [Nat.add].
  fold (Spec.first12 (Spec.normalized s)). fold (Spec.last2 (Spec.normalized s)).
  destruct (is_valid_cnpj_iff_helper s H) as [H1 H2]. split; [exact H1|exact H2].
Qed.

Lemma valid_iff_split_checks_witness :
  _is_valid_cnpj "11.222.333/0001-81" = Return true
  ↔ _generate_cnpj_dv ((_split_cnpj "11.222.333/0001-81").1.1
                        +:+ (_split_cnpj "11.222.333/0001-81").1.2)
    = Return (_split_cnpj "11.222.333/0001-81").2.
Proof.
  pose proof (valid_iff_split_checks "11.222.333/0001-81") as H.
  destruct (_split_cnpj "11.222.333/0001-81") as [[b o] d].
  apply H. vm_compute. lia.
Defined.

(** ** When the check digit computation raises *)

Lemma int_nondigit c : ¬ Py.isdigit c → int c = Raise ValueError.
Proof.
  unfold int, Py.isdigit. destruct (Ascii.is_nat c); [|done].
  intros H. by destruct H.
Qed.

(** Only the characters that meet a weight are converted. *)
Lemma weigh_returns (l : list ascii) (ws : list Z) :
  Forall (λ c, Py.isdigit c) (take (length ws) l) →
  comprehension (λ '(num, weight), do n <- int num; Return (n * weight)%Z) (zip l ws)
  = Return (zip_with Z.mul (Spec.digit_value <$> l) ws).
Proof.
  revert ws. induction l as [|c l IH]; intros [|w ws] H; try reflexivity.
  cbn [length take] in H. apply Forall_cons in H as [Hc H].
  cbn [zip zip_with comprehension fmap list_fmap].
  rewrite (int_digit c Hc). cbn [rbind]. by rewrite IH.
Qed.

Lemma weigh_raises (l : list ascii) (ws : list Z) :
  ¬ Forall (λ c, Py.isdigit c) (take (length ws) l) →
  comprehension (λ '(num, weight), do n <- int num; Return (n * weight)%Z) (zip l ws)
  = Raise ValueError.
Proof.
  revert ws. induction l as [|c l IH]; intros [|w ws] H;
    try (exfalso; apply H; by constructor).
  cbn [length take] in H. cbn [zip zip_with comprehension].
  destruct (decide (Py.isdigit c)) as [Hc|Hc].
  - rewrite (int_digit c Hc). cbn [rbind]. rewrite IH; [done|].
    intros Hl. apply H. by constructor.
  - by rewrite (int_nondigit c Hc).
Qed.

Lemma calculate_digit_returns (ws : list Z) (t : string) :
  Forall (λ c, Py.isdigit c) (take (length ws) (Py.chars t)) →
  (do weighted_digits <-
     comprehension (λ '(num, weight), do n <- int num; Return (n * weight)%Z)
                   (zip (Py.chars t) ws);
   let sum_remainder := (Py.sum weighted_digits `mod` 11)%Z in
   if (sum_remainder <? 2)%Z then Return "0"
   else Return (Py.str_of_int (11 - sum_remainder)))
  = Return (Spec.mod11_digit ws t).
Proof.
  intros Hs. rewrite (weigh_returns _ ws Hs). cbn [rbind].
  unfold Spec.mod11_digit, Spec.weighted_sum, Py.sum.
  set (r := (_ `mod` 11)%Z).
  pose proof (Z.mod_pos_bound
    (foldr Z.add 0%Z (zip_with Z.mul (Spec.digit_value <$> Py.chars t) ws)) 11 eq_refl) as Hr.
  fold r in Hr. cbv zeta.
  destruct (Z.ltb_spec r 2); [done|].
  by rewrite str_of_small_int by lia.
Qed.

Lemma calculate_first_returns s :
  Forall (λ c, Py.isdigit c) (take 12 (Py.chars s)) →
  _calculate_cnpj_dv_digit s "" = Return (Spec.mod11_digit Spec.weights_first s).
Proof.
  intros Hs. unfold _calculate_cnpj_dv_digit.
  rewrite decide_True by done.
  change (Py.slice_list (Some 1%Z) None [6; 5; 4; 3; 2; 9; 8; 7; 6; 5; 4; 3; 2]%Z)
    with Spec.weights_first.
  cbv zeta. rewrite chars_app. simpl (Py.chars ""). rewrite app_nil_r.
  by apply calculate_digit_returns.
Qed.

Lemma calculate_first_raises s :
  ¬ Forall (λ c, Py.isdigit c) (take 12 (Py.chars s)) →
  _calculate_cnpj_dv_digit s "" = Raise ValueError.
Proof.
  intros Hs. unfold _calculate_cnpj_dv_digit.
  rewrite decide_True by done.
  change (Py.slice_list (Some 1%Z) None [6; 5; 4; 3; 2; 9; 8; 7; 6; 5; 4; 3; 2]%Z)
    with Spec.weights_first.
  cbv zeta. rewrite chars_app. simpl (Py.chars ""). rewrite app_nil_r.
  by rewrite (weigh_raises _ Spec.weights_first Hs).
Qed.

Lemma calculate_second_returns s first :
  first ≠ "" →
  Forall (λ c, Py.isdigit c) (take 13 (Py.chars (s +:+ first))) →
  _calculate_cnpj_dv_digit s first
  = Return (Spec.mod11_digit Spec.weights_second (s +:+ first)).
Proof.
  intros Hne Hs. unfold _calculate_cnpj_dv_digit.
  rewrite decide_False by done. cbv zeta.
  by apply (calculate_digit_returns Spec.weights_second).
Qed.

Lemma calculate_second_raises s first :
  first ≠ "" →
  ¬ Forall (λ c, Py.isdigit c) (take 13 (Py.chars (s +:+ first))) →
  _calculate_cnpj_dv_digit s first = Raise ValueError.
Proof.
  intros Hne Hs. unfold _calculate_cnpj_dv_digit.
  rewrite decide_False by done. cbv zeta.
  by rewrite (weigh_raises _ [6; 5; 4; 3; 2; 9; 8; 7; 6; 5; 4; 3; 2]%Z Hs).
Qed.

(** X9: [_generate_cnpj_dv] returns two digits exactly when the first 13
    characters of its argument (or all of them, if there are fewer) are
    digits, and raises [ValueError] otherwise; characters after the 13th are
    never converted. *)
Theorem generate_dv_value_error (s : string) :
  (Forall (λ c, Py.isdigit c) (take 13 (Py.chars s)) →
     ∃ dv, _generate_cnpj_dv s = Return dv ∧ Py.len dv = 2 ∧ Spec.digit_string dv)
  ∧ (¬ Forall (λ c, Py.isdigit c) (take 13 (Py.chars s)) →
       _generate_cnpj_dv s = Raise ValueError).
Proof.
  unfold _generate_cnpj_dv.
  destruct (mod11_digit_shape Spec.weights_first s) as (c1 & Hc1 & Hd1).
  split.
  - intros H13.
    assert (Forall (λ c, Py.isdigit c) (take 12 (Py.chars s))) as H12.
    { replace (take 12 (Py.chars s)) with (take 12 (take 13 (Py.chars s)))
        by (rewrite take_take; f_equal).
      by apply Forall_take. }
    rewrite (calculate_first_returns s H12), Hc1. cbn [rbind].
    rewrite calculate_second_returns; [|done|].
    + destruct (mod11_digit_shape Spec.weights_second (s +:+ String c1 ""))
        as (c2 & Hc2 & Hd2).
      rewrite Hc2. cbn [rbind]. eexists. split; [done|]. split; [done|].
      unfold Spec.digit_string. simpl. by repeat constructor.
    + rewrite chars_app, take_app. apply Forall_app. split; [done|].
      apply Forall_take. simpl. by repeat constructor.
  - intros H13.
    destruct (decide (Forall (λ c, Py.isdigit c) (take 12 (Py.chars s))))
      as [H12|H12]; [|by rewrite (calculate_first_raises s H12)].
    rewrite (calculate_first_returns s H12), Hc1. cbn [rbind].
    rewrite calculate_second_raises; [done|done|].
    assert (13 ≤ length (Py.chars s)) as Hlen.
    { destruct (decide (13 ≤ length (Py.chars s))) as [|Hshort]; [done|].
      exfalso. apply H13. rewrite take_ge by lia.
      by rewrite take_ge in H12 by lia. }
    by rewrite chars_app, take_app_le.
Qed.

Lemma generate_dv_value_error_witness :
  (∃ dv, _generate_cnpj_dv "1122233300018-extra" = Return dv
         ∧ Py.len dv = 2 ∧ Spec.digit_string dv)
  ∧ _generate_cnpj_dv "11222333000A" = Raise ValueError
  ∧ _generate_cnpj_dv "112223330001X" = Raise ValueError.
Proof.
  split; [|split].
  - apply (generate_dv_value_error "1122233300018-extra"). simpl. repeat constructor.
  - apply (generate_dv_value_error "11222333000A"). simpl.
    intros H. do 11 apply Forall_cons in H as [_ H]. by apply Forall_cons in H as [H _].
  - apply (generate_dv_value_error "112223330001X"). simpl.
    intros H. do 12 apply Forall_cons in H as [_ H]. by apply Forall_cons in H as [H _].
Defined.

(** ** What the row mapper reads and returns *)

Lemma str_of_int_head z :
  ∃ c rest, Py.str_of_int z = String c rest ∧ (Py.isdigit c ∨ c = "-"%char).
Proof.
  unfold Py.str_of_int. destruct (Z.to_int z) as [d|d]; simpl.
  - destruct d; simpl; eexists _, _; (split; [reflexivity|by left]).
  - eexists _, _. split; [reflexivity|by right].
Qed.

(** A string, integer, boolean or absent value is never coerced to the empty
    string or to the text None. *)
Lemma always_str_or_none_clean v :
  (∀ text, v ≠ PyObj text) →
  _always_str_or_none v ≠ Some "" ∧ _always_str_or_none v ≠ Some "None".
Proof.
  intros Hv. destruct v as [|s|z|[|]|text]; try done.
  - unfold _always_str_or_none. simpl.
    destruct (bool_decide_reflect (s = "None")) as [->|H1]; [done|].
    destruct (bool_decide_reflect (s = "")) as [->|H2]; [done|].
    simpl. split; congruence.
  - change (_always_str_or_none (PyInt z)) with (Some (Py.str_of_int z)).
    destruct (str_of_int_head z) as (c & rest & -> & [Hc| ->]).
    + split; [done|]. intros [= -> _]. done.
    + done.
  - by destruct (Hv text).
Qed.

(** X10: in a mapped Company or Partner no positional attribute is the empty
    string or the text None, as long as the row holds only strings, integers,
    booleans and absent values. *)
Theorem mapped_attributes_clean :
  (∀ v, (∀ text, v ≠ PyObj text) →
        _always_str_or_none v ≠ Some "" ∧ _always_str_or_none v ≠ Some "None")
  ∧ (∀ data cnpj c,
       Forall (λ v, ∀ text, v ≠ PyObj text) data →
       _format_company_data data cnpj = Return c →
       Forall (λ '(_, field), field c ≠ Some "" ∧ field c ≠ Some "None")
              company_columns)
  ∧ (∀ data cnpj p,
       Forall (λ v, ∀ text, v ≠ PyObj text) data →
       _format_partner_data data cnpj = Return p →
       Forall (λ '(_, field), field p ≠ Some "" ∧ field p ≠ Some "None")
              partner_columns).
Proof.
  split; [apply always_str_or_none_clean|split].
  - intros data cnpj c Hdata Hc.
    eapply Forall_impl; [exact (format_company_columns data cnpj c Hc)|].
    intros [i field] (v & Hv & ->). apply always_str_or_none_clean.
    exact (Forall_lookup_1 _ _ _ _ Hdata Hv).
  - intros data cnpj p Hdata Hp.
    eapply Forall_impl; [exact (format_partner_columns data cnpj p Hp)|].
    intros [i field] (v & Hv & ->). apply always_str_or_none_clean.
    exact (Forall_lookup_1 _ _ _ _ Hdata Hv).
Qed.

Lemma mapped_attributes_clean_witness :
  (_always_str_or_none (PyInt 0) ≠ Some ""
   ∧ _always_str_or_none (PyInt 0) ≠ Some "None")
  ∧ Forall (λ '(_, field), field (partner_of "MARIA") ≠ Some ""
                           ∧ field (partner_of "MARIA") ≠ Some "None")
           partner_columns.
Proof.
  destruct mapped_attributes_clean as (H1 & _ & H3). split.
  - apply H1. discriminate.
  - apply (H3 [PyStr "11222333"; PyInt 2; PyStr "MARIA"; PyStr "***123456**";
               PyInt 49; PyStr "2010-05-17"; PyNone; PyStr "None"; PyStr "";
               PyInt 0; PyInt 5] "11222333000181").
    + repeat constructor; discriminate.
    + vm_compute. reflexivity.
Defined.

Lemma index_skip {A} (x : A) (l : list A) (i : nat) : index (x :: l) (S i) = index l i.
Proof. reflexivity. Qed.

Lemma format_company_identifier data cnpj c :
  _format_company_data data cnpj = Return c →
  (Company.cnpj_basico c, Company.cnpj_ordem c, Company.cnpj_dv c) = _split_cnpj cnpj
  ∧ Company.cnpj_completo c = _format_full_cnpj cnpj
  ∧ Company.cnpj_completo_apenas_numeros c = _cnpj_only_digits cnpj.
Proof.
  unfold _format_company_data. destruct (_split_cnpj cnpj) as [[b o] d].
  cbv zeta. intros H. read_columns H. by injection H as <-.
Qed.

Lemma format_partner_identifier data cnpj p :
  _format_partner_data data cnpj = Return p →
  (Partner.cnpj_basico p, Partner.cnpj_ordem p, Partner.cnpj_dv p) = _split_cnpj cnpj
  ∧ Partner.cnpj_completo p = _format_full_cnpj cnpj
  ∧ Partner.cnpj_completo_apenas_numeros p = _cnpj_only_digits cnpj.
Proof.
  unfold _format_partner_data. destruct (_split_cnpj cnpj) as [[b o] d].
  cbv zeta. intros H. read_columns H. by injection H as <-.
Qed.

(** X11: the identifier attributes of a mapped Company or Partner come from
    the identifier passed in, never from the row: columns 0 to 2 of a company
    row and column 0 of a partner row are not read at all. *)
Theorem identifier_not_read_from_row :
  (∀ a b c a' b' c' rest cnpj,
     _format_company_data (a :: b :: c :: rest) cnpj
     = _format_company_data (a' :: b' :: c' :: rest) cnpj)
  ∧ (∀ a a' rest cnpj,
       _format_partner_data (a :: rest) cnpj = _format_partner_data (a' :: rest) cnpj)
  ∧ (∀ data cnpj c,
       _format_company_data data cnpj = Return c →
       (Company.cnpj_basico c, Company.cnpj_ordem c, Company.cnpj_dv c)
         = _split_cnpj cnpj
       ∧ Company.cnpj_completo c = _format_full_cnpj cnpj
       ∧ Company.cnpj_completo_apenas_numeros c = _cnpj_only_digits cnpj)
  ∧ (∀ data cnpj p,
       _format_partner_data data cnpj = Return p →
       (Partner.cnpj_basico p, Partner.cnpj_ordem p, Partner.cnpj_dv p)
         = _split_cnpj cnpj
       ∧ Partner.cnpj_completo p = _format_full_cnpj cnpj
       ∧ Partner.cnpj_completo_apenas_numeros p = _cnpj_only_digits cnpj).
Proof.
  split; [|split; [|split]].
  - intros a b c a' b' c' rest cnpj. unfold _format_company_data.
    destruct (_split_cnpj cnpj) as [[? ?] ?]. cbv zeta.
    cbn [map]. by rewrite !index_skip.
  - intros a a' rest cnpj. unfold _format_partner_data.
    destruct (_split_cnpj cnpj) as [[? ?] ?]. cbv zeta.
    cbn [map]. by rewrite !index_skip.
  - apply format_company_identifier.
  - apply format_partner_identifier.
Qed.

Lemma identifier_not_read_from_row_witness :
  ∃ c, _format_company_data
         ([PyStr "99999999"; PyStr "9999"; PyStr "99"] ++ drop 3 company_row)
         "11222333000181" = Return c
       ∧ Company.cnpj_completo c = "11.222.333/0001-81"
       ∧ Company.cnpj_completo_apenas_numeros c = "11222333000181".
Proof.
  destruct identifier_not_read_from_row as (Hcols & _ & Hid & _).
  destruct (format_company_total company_row "11222333000181") as (c & Hc & _);
    [vm_compute; lia|].
  exists c.
  assert (_format_company_data
            ([PyStr "99999999"; PyStr "9999"; PyStr "99"] ++ drop 3 company_row)
            "11222333000181" = Return c) as Hc'.
  { rewrite <- Hc. apply Hcols. }
  split; [exact Hc'|].
  destruct (Hid _ _ _ Hc') as (_ & H1 & H2). split; [exact H1|exact H2].
Defined.

Lemma index_map_take {A B} (f : A → B) (l : list A) (n i : nat) :
  i < n → index (map f (take n l)) i = index (map f l) i.
Proof.
  revert n i. induction l as [|x l IH]; intros [|n] [|i] Hi; try done; try lia.
  cbn [take map]. rewrite !index_skip. apply IH. lia.
Qed.

(** X12: [_format_company_data] raises [IndexError] exactly on rows with fewer
    than 39 columns and [_format_partner_data] exactly on rows with fewer than
    11; on longer rows they return, whatever the columns hold, and columns
    beyond these are ignored. *)
Theorem mapper_index_error (data : row) (cnpj : string) :
  (length data < 39 → _format_company_data data cnpj = Raise IndexError)
  ∧ (39 ≤ length data →
       ∃ c, _format_company_data data cnpj = Return c
            ∧ _format_company_data (take 39 data) cnpj = Return c)
  ∧ (length data < 11 → _format_partner_data data cnpj = Raise IndexError)
  ∧ (11 ≤ length data →
       ∃ p, _format_partner_data data cnpj = Return p
            ∧ _format_partner_data (take 11 data) cnpj = Return p).
Proof.
  split; [|split; [|split]].
  - intros Hlen. destruct (_format_company_data data cnpj) as [c|e] eqn:E.
    + exfalso. pose proof (format_company_columns _ _ _ E) as Hcols.
      apply Forall_forall with (x := (38, Company.cnae)) in Hcols.
      * destruct Hcols as (v & Hv & _). apply lookup_lt_Some in Hv. lia.
      * unfold company_columns. repeat constructor.
    + by rewrite (format_company_raises _ _ _ E).
  - intros Hlen. unfold _format_company_data.
    destruct (_split_cnpj cnpj) as [[b o] d]. cbv zeta.
    rewrite !index_map_take by lia.
    write_columns data. by eexists.
  - intros Hlen. destruct (_format_partner_data data cnpj) as [p|e] eqn:E.
    + exfalso. pose proof (format_partner_columns _ _ _ E) as Hcols.
      apply Forall_forall with (x := (10, Partner.faixa_etaria)) in Hcols.
      * destruct Hcols as (v & Hv & _). apply lookup_lt_Some in Hv. lia.
      * unfold partner_columns. repeat constructor.
    + by rewrite (format_partner_raises _ _ _ E).
  - intros Hlen. unfold _format_partner_data.
    destruct (_split_cnpj cnpj) as [[b o] d]. cbv zeta.
    rewrite !index_map_take by lia.
    write_columns data. by eexists.
Qed.

Lemma mapper_index_error_witness :
  _format_company_data (take 38 company_row) "11222333000181" = Raise IndexError
  ∧ (∃ c, _format_company_data (company_row ++ [PyInt 7]) "11222333000181" = Return c
          ∧ _format_company_data (take 39 (company_row ++ [PyInt 7])) "11222333000181"
            = Return c)
  ∧ _format_partner_data [] "11222333000181" = Raise IndexError.
Proof.
  split; [|split].
  - apply (mapper_index_error (take 38 company_row) "11222333000181").
    vm_compute. lia.
  - apply (mapper_index_error (company_row ++ [PyInt 7]) "11222333000181").
    vm_compute. lia.
  - apply (mapper_index_error [] "11222333000181"). simpl. lia.
Defined.

(** ** Errors of the repository *)

Lemma get_partners_never_invalid db cnpj w msg :
  _is_valid_cnpj cnpj = Return true →
  (get_partners db cnpj w).1 ≠ Raise (InvalidCNPJException msg).
Proof.
  intros Hv Hraise. rewrite get_partners_valid in Hraise by done.
  cbn [fst] in Hraise.
  pose proof (select_never_invalid db select_resposta_socios
                (partners_filter cnpj) w msg) as Hsel.
  destruct (_select _ _ _ w).1 as [results|e];
    [|injection Hraise as ->; by destruct Hsel].
  apply rbind_raise_inv in Hraise as [Hraise|(? & _ & Hraise)]; [|done].
  apply comprehension_raises in Hraise as (r & _ & Hr).
  by apply format_partner_raises in Hr.
Qed.

(** X13: [get_partners] raises [InvalidCNPJException] exactly when the
    identifier is invalid, carrying the message that quotes the identifier,
    and then opens no connection and sends no query. *)
Theorem get_partners_invalid_identifier (db : database) (cnpj : string) (w : world) :
  ((∃ msg, (get_partners db cnpj w).1 = Raise (InvalidCNPJException msg))
     ↔ _is_valid_cnpj cnpj = Return false)
  ∧ (_is_valid_cnpj cnpj = Return false →
       get_partners db cnpj w
       = (Raise (InvalidCNPJException (invalid_message cnpj)), w)).
Proof.
  split; [split|].
  - intros [msg Hraise]. destruct (is_valid_total cnpj) as [[|] Hv]; [|done].
    by destruct (get_partners_never_invalid db cnpj w msg Hv).
  - intros Hv. rewrite get_partners_invalid by done. by eexists.
  - apply get_partners_invalid.
Qed.

Lemma get_partners_invalid_identifier_witness :
  get_partners (serving [partner_row "ANA"]) "12345678901234" idle
  = (Raise (InvalidCNPJException (invalid_message "12345678901234")), idle).
Proof.
  apply (get_partners_invalid_identifier (serving [partner_row "ANA"])
           "12345678901234" idle).
  vm_compute. reflexivity.
Defined.

Lemma select_refused db c data w msg :
  refuse db = Some msg → _select db c data w = (Raise (DatabaseError msg), w).
Proof. intros Hr. by rewrite select_unfold, Hr. Qed.

Lemma select_fails db c data w msg :
  refuse db = None →
  (answer db c data = ExecuteError msg
   ∨ ∃ rows, answer db c data = Rows rows (Some msg)) →
  (_select db c data w).1 = Raise (DatabaseError msg).
Proof.
  intros Hr Ha. rewrite select_unfold, Hr.
  by destruct Ha as [->|[rows ->]].
Qed.

(** X14: failures of the row source reach the caller unchanged.  For a valid
    identifier, a refused connection makes both operations raise the
    connection error with nothing opened and nothing sent; a query that the
    server rejects, or whose rows cannot be read to the end, makes them raise
    that error, and the rows read before it are dropped. *)
Theorem database_errors_propagate (db : database) (cnpj : string) (w : world)
    (msg : string) :
  _is_valid_cnpj cnpj = Return true →
  (refuse db = Some msg →
     get_company db cnpj w = (Raise (DatabaseError msg), w)
     ∧ get_partners db cnpj w = (Raise (DatabaseError msg), w))
  ∧ (refuse db = None →
     (answer db select_resposta_cnpj (company_filter cnpj) = ExecuteError msg
      ∨ ∃ rows, answer db select_resposta_cnpj (company_filter cnpj)
                = Rows rows (Some msg)) →
     (get_company db cnpj w).1 = Raise (DatabaseError msg))
  ∧ (refuse db = None →
     (answer db select_resposta_socios (partners_filter cnpj) = ExecuteError msg
      ∨ ∃ rows, answer db select_resposta_socios (partners_filter cnpj)
                = Rows rows (Some msg)) →
     (get_partners db cnpj w).1 = Raise (DatabaseError msg)).
Proof.
  intros Hv. rewrite get_company_valid, get_partners_valid by done.
  split; [|split].
  - intros Hr. by rewrite !(select_refused _ _ _ _ msg Hr).
  - intros Hr Ha. cbn [fst]. by rewrite (select_fails _ _ _ _ msg Hr Ha).
  - intros Hr Ha. cbn [fst]. by rewrite (select_fails _ _ _ _ msg Hr Ha).
Qed.

Lemma database_errors_propagate_witness :
  (get_company (unreachable "timeout") "11222333000181" idle
     = (Raise (DatabaseError "timeout"), idle)
   ∧ get_partners (unreachable "timeout") "11222333000181" idle
     = (Raise (DatabaseError "timeout"), idle))
  ∧ (get_company (breaking [company_row] "connection lost") "11222333000181" idle).1
    = Raise (DatabaseError "connection lost")
  ∧ (get_partners (rejecting "syntax error") "11222333000181" idle).1
    = Raise (DatabaseError "syntax error").
Proof.
  assert (_is_valid_cnpj "11222333000181" = Return true) as Hv
    by (vm_compute; reflexivity).
  split; [|split].
  - apply (database_errors_propagate (unreachable "timeout") "11222333000181"
             idle "timeout" Hv). reflexivity.
  - apply (database_errors_propagate (breaking [company_row] "connection lost")
             "11222333000181" idle "connection lost" Hv); [reflexivity|].
    right. by exists [company_row].
  - apply (database_errors_propagate (rejecting "syntax error")
             "11222333000181" idle "syntax error" Hv); [reflexivity|].
    by left.
Defined.

Lemma mapper_short_partner r cnpj :
  length r < 11 → ∀ p, _format_partner_data r cnpj ≠ Return p.
Proof.
  intros Hlen p E. pose proof (format_partner_columns _ _ _ E) as Hcols.
  apply Forall_forall with (x := (10, Partner.faixa_etaria)) in Hcols.
  - destruct Hcols as (v & Hv & _). apply lookup_lt_Some in Hv. lia.
  - unfold partner_columns. repeat constructor.
Qed.

(** X15: [get_partners] maps all rows or none: for a valid identifier and a
    result that was read to the end, one row with fewer than 11 columns makes
    the whole call raise [IndexError], and otherwise every row is mapped. *)
Theorem get_partners_all_or_nothing (db : database) (cnpj : string) (w : world)
    (rows : list row) :
  _is_valid_cnpj cnpj = Return true → refuse db = None →
  answer db select_resposta_socios (partners_filter cnpj) = Rows rows None →
  (Exists (λ r, length r < 11) rows →
     (get_partners db cnpj w).1 = Raise IndexError)
  ∧ (Forall (λ r, 11 ≤ length r) rows →
       ∃ partners, (get_partners db cnpj w).1 = Return (length rows, partners)
                   ∧ length partners = length rows)
  ∧ (rows = [] → (get_partners db cnpj w).1 = Return (0, [])).
Proof.
  intros Hv Hr Ha. rewrite get_partners_valid by done. cbn [fst].
  rewrite (select_rows _ _ _ _ _ Hr Ha).
  destruct (comprehension (λ r, _format_partner_data r cnpj) rows)
    as [ps|e] eqn:E; cbn [rbind].
  - apply comprehension_returns in E as [Hlen Hall]. split; [|split].
    + intros Hshort. exfalso. apply Exists_exists in Hshort as (r & Hin & Hr11).
      apply list_elem_of_lookup in Hin as [i Hi].
      destruct (Forall2_lookup_l _ _ _ _ _ Hall Hi) as (p & _ & Hp).
      destruct (mapper_short_partner r cnpj Hr11 p Hp).
    + intros _. by exists ps.
    + intros ->. destruct ps; [done|discriminate Hlen].
  - apply comprehension_raises in E as (r & Hin & Hraise).
    pose proof (format_partner_raises _ _ _ Hraise) as ->. split; [done|split].
    + intros Hall. exfalso.
      pose proof (proj1 (Forall_forall _ _) Hall r Hin) as Hlong.
      destruct (format_partner_total r cnpj Hlong) as (p & Hp & _). congruence.
    + intros ->. by apply elem_of_nil in Hin.
Qed.

Lemma get_partners_all_or_nothing_witness :
  (get_partners (serving [partner_row "ANA"; [PyInt 1]; partner_row "CARLA"])
     "11222333000181" idle).1 = Raise IndexError
  ∧ (get_partners (serving []) "11222333000181" idle).1 = Return (0, []).
Proof.
  split.
  - apply (get_partners_all_or_nothing
             (serving [partner_row "ANA"; [PyInt 1]; partner_row "CARLA"])
             "11222333000181" idle
             [partner_row "ANA"; [PyInt 1]; partner_row "CARLA"]);
      [vm_compute; reflexivity|reflexivity|reflexivity|].
    apply Exists_cons_tl, Exists_cons_hd. simpl. lia.
  - apply (get_partners_all_or_nothing (serving []) "11222333000181" idle []);
      [vm_compute; reflexivity|reflexivity|reflexivity|reflexivity].
Defined.

(** ** Renderings determine the normal form *)

(** X16: two inputs have the same canonical rendering exactly when they have
    the same normal form, and likewise the same three components exactly when
    they have the same normal form: neither rendering nor splitting loses or
    confuses digits. *)
Theorem renderings_injective (s t : string) :
  (_format_full_cnpj s = _format_full_cnpj t
     ↔ _cnpj_only_digits s = _cnpj_only_digits t)
  ∧ (_split_cnpj s = _split_cnpj t
       ↔ _cnpj_only_digits s = _cnpj_only_digits t).
Proof.
  split; split.
  - intros H. by rewrite <- (strip_format s), <- (strip_format t), H.
  - apply format_normal_form.
  - intros H. pose proof (split_app s) as Hs. pose proof (split_app t) as Ht.
    rewrite H in Hs. destruct (_split_cnpj t) as [[b o] d]. congruence.
  - apply split_normal_form.
Qed.

Lemma renderings_injective_witness :
  _format_full_cnpj "11.222.333/0001-81" = _format_full_cnpj "11222333000181"
  ∧ _split_cnpj "191" = _split_cnpj "00.000.000/0001-91".
Proof.
  split.
  - apply (renderings_injective "11.222.333/0001-81" "11222333000181"). reflexivity.
  - apply (renderings_injective "191" "00.000.000/0001-91"). reflexivity.
Defined.
